(** * piponic_cloud: the Firebase cloud functions of functions/index.js

    A shallow embedding of the cloud functions that connect the Raspberry Pi
    sensing units to the mobile application, and the properties of the
    threshold evaluation ([detectSystemErrors]), of the ingestion handler
    ([iotStoreDeviceUpdates]) and of the configuration relay
    ([iotDeviceConfigUpdate], [generateRequest]). index.js holds three
    successive versions of the module; the embedding follows the last one,
    which contains the other two.

    Conventions of the embedding:
    - a JavaScript number is an IEEE 754 binary64, Rocq's primitive [float];
    - a JavaScript string is a Rocq [string], read as its UTF-8 bytes;
    - the fields of a sensor reading are numbers, those of a configuration
      document numbers or booleans, those of an error document booleans;
    - an object that is only read and written by key is a [gmap string _];
      the configuration object, which the code enumerates with [for .. in],
      is an association list in enumeration order;
    - the calls a function makes to the Firebase and Cloud IoT clients are
      collected, in program order, in a trace ([list call]); what a [get()]
      of a Firestore document resolves to is an input of the handler;
    - [console.log] is not modelled. *)

From Stdlib Require Import Floats ZArith Ascii.
From stdpp Require Import gmap strings list fin_maps.

Local Open Scope string_scope.

(** ** JavaScript values *)

Module JS.

(** The values the Firestore documents of this program hold. *)
Inductive value : Type :=
| VNumber (x : float)
| VBoolean (b : bool).

(** An object with its own enumerable properties, in enumeration order.
    The keys of a JavaScript object are distinct; no property below needs
    it. *)
Definition object : Type := list (string * value).

(** [o.k]: the first binding of [k]; [None] is JavaScript's [undefined]. *)
Fixpoint get (o : object) (k : string) : option value :=
  match o with
  | [] => None
  | (k', v) :: o' => if String.eqb k k' then Some v else get o' k
  end.

(** The keys [for (const k in o)] visits. *)
Definition keys (o : object) : list string := map fst o.

(** ECMAScript ToNumber on the values above. *)
Definition ToNumber (v : option value) : float :=
  match v with
  | None => nan
  | Some (VNumber x) => x
  | Some (VBoolean true) => 1%float
  | Some (VBoolean false) => 0%float
  end.

(** [x < y] and [x > y] on numbers: false as soon as one side is NaN. *)
Definition lt (x y : float) : bool := PrimFloat.ltb x y.
Definition gt (x y : float) : bool := PrimFloat.ltb y x.

(** ECMAScript ToBoolean of a property holding a boolean or nothing. *)
Definition truthy (v : option bool) : bool :=
  match v with
  | Some b => b
  | None => false
  end.

End JS.

(** ** Documents and client calls *)

(** [admin.firestore.Timestamp]. *)
Record Timestamp : Type := { seconds : Z; nanoseconds : Z }.

(** A sensor message once the handler has stamped it: the numeric fields of
    the JSON body other than [timestamp], and the server timestamp stored
    under that key. *)
Record deviceDoc : Type := { fields : gmap string float; timestamp : Timestamp }.

Inductive document : Type :=
| Readings (d : deviceDoc)
| Settings (c : JS.object)
| Errors (e : gmap string bool).

Record notification : Type := { title : string; body : string; sound : string }.
Record notificationMessage : Type := { message_notification : notification }.
Record notificationOptions : Type := { priority : string; timeToLive : Z }.

(** What [sendToTopic] receives: topic, message and options. *)
Definition FCM : Type := string * notificationMessage * notificationOptions.

Record request : Type := { name : string; binaryData : string }.

Inductive call : Type :=
| database_ref_set (ref : string) (data : deviceDoc)
| firestore_set (collection doc : string) (data : document)
| firestore_add (collection doc subcollection : string) (data : document)
| messaging_sendToTopic (topic : string) (message : notificationMessage)
                        (options : notificationOptions)
| client_modifyCloudToDeviceConfig (req : request).

#[global] Instance notification_eq_dec : EqDecision notification.
Proof. solve_decision. Defined.
#[global] Instance notificationMessage_eq_dec : EqDecision notificationMessage.
Proof. solve_decision. Defined.
#[global] Instance notificationOptions_eq_dec : EqDecision notificationOptions.
Proof. solve_decision. Defined.

(** ** The trace monad *)

Definition M (A : Type) : Type := A * list call.

Definition ret {A : Type} (a : A) : M A := (a, []).

Definition bind {A B : Type} (m : M A) (f : A -> M B) : M B :=
  let (a, t1) := m in
  let (b, t2) := f a in
  (b, (t1 ++ t2)%list).

Definition perform (c : call) : M unit := (tt, [c]).

Declare Scope trace_scope.
Delimit Scope trace_scope with trace.
Notation "x <- m ;; k" := (bind m (fun x => k))
  (at level 100, m at next level, right associativity) : trace_scope.
Notation "m ;; k" := (bind m (fun _ => k))
  (at level 100, right associativity) : trace_scope.
Local Open Scope trace_scope.

(** [for (const k in o) { e = body(k, e) }], the loop threading the one
    object the body mutates. *)
Fixpoint for_in {S : Type} (ks : list string) (body : string -> S -> M S) (s : S) : M S :=
  match ks with
  | [] => ret s
  | k :: ks' => s' <- body k s ;; for_in ks' body s'
  end.

(** The notifications of a trace, in the order they were sent. *)
Definition notifications (t : list call) : list FCM :=
  omap (fun c => match c with
                 | messaging_sendToTopic topic m o => Some (topic, m, o)
                 | _ => None
                 end) t.

(** ** Constants of index.js *)

Definition GCLOUD_PROJECT := "piponics".
Definition REGISTRY_ID := "RaspberryPis".
Definition IOT_REGION := "us-central1".
Definition IOT_TOPIC := "device-events".
Definition STATUS_COLLECTION := "Status".
Definition HISTORY_COLLECTION := "History".
Definition CONFIG_COLLECTION := "Config".
Definition ERROR_COLLECTION := "Error".

Definition GENERIC_WARN_MSG := "Please check your system to avoid damage...".
Definition TEMP_HIGH_MSG := "TEMPERATURE TOO HIGH...".
Definition TEMP_LOW_MSG := "TEMPERATURE TOO LOW...".
Definition PH_HIGH_MSG := "PH TOO HIGH...".
Definition PH_LOW_MSG := "PH TOO LOW...".
Definition BATTERY_LOW_MSG := "BATTERY TOO LOW..".
Definition INTERNAL_LEAK_MSG := "INTERNAL LEAK DETECTED...".
Definition LEAK_MSG := "LEAK DETECTED...".

Definition DEFAULT_CONFIG_DOC : JS.object :=
  [ ("max_ph", JS.VNumber 10);
    ("min_ph", JS.VNumber 5);
    ("max_temperature", JS.VNumber 25);
    ("min_temperature", JS.VNumber 15);
    ("peristaltic_pump_on", JS.VBoolean false);
    ("target_ph", JS.VNumber 7);
    ("update_interval_minutes", JS.VNumber 30) ].

Definition DEFAULT_ERROR_DOC : gmap string bool :=
  list_to_map
    [ ("PH_HIGH", false);
      ("PH_LOW", false);
      ("TEMP_HIGH", false);
      ("TEMP_LOW", false);
      ("WATER_LEVEL_LOW", false);
      ("BATTERY_LOW", false);
      ("LEAK_DETECTED", false);
      ("INTERNAL_LEAK_DETECTED", false) ].

Definition MIN_BATTERY_VOLTAGE : float := 4.0%float.
(** The literal 0.6 denotes the binary64 nearest to it, 0x1.3333333333333p-1. *)
#[warnings="-inexact-float"]
Definition MAX_LEAK_VOLTAGE : float := 0.6%float.

(** ** sendFCMNotification *)

Definition sendFCMNotification (topic title body : string) : M unit :=
  let notificationOptions :=
    {| priority := "high"; timeToLive := 60 * 60 * 24 |} in
  let notificationMessage :=
    {| message_notification := {| title := title; body := body; sound := "default" |} |} in
  perform (messaging_sendToTopic topic notificationMessage notificationOptions).

(** ** detectSystemErrors *)

(** The body of the loop over the configuration keys: the [switch]. The
    [hasOwnProperty] filter passes every key of [JS.keys]. *)
Definition switch_config (deviceId : string) (deviceData : gmap string float)
    (configData : JS.object) (config : string) (errorData : gmap string bool)
  : M (gmap string bool) :=
  if String.eqb config "min_temperature" then
    match deviceData !! "temperature" with
    | Some temperature =>
        if JS.lt temperature (JS.ToNumber (JS.get configData "min_temperature")) then
          (if negb (JS.truthy (errorData !! "TEMP_LOW")) then
             sendFCMNotification deviceId (deviceId +:+ ": " +:+ TEMP_LOW_MSG)
                                 GENERIC_WARN_MSG
           else ret tt) ;;
          ret (<["TEMP_LOW" := true]> errorData)
        else ret (<["TEMP_LOW" := false]> errorData)
    | None => ret errorData
    end
  else if String.eqb config "max_temperature" then
    match deviceData !! "temperature" with
    | Some temperature =>
        if JS.gt temperature (JS.ToNumber (JS.get configData "max_temperature")) then
          (if negb (JS.truthy (errorData !! "TEMP_HIGH")) then
             sendFCMNotification deviceId (deviceId +:+ ": " +:+ TEMP_HIGH_MSG)
                                 GENERIC_WARN_MSG
           else ret tt) ;;
          ret (<["TEMP_HIGH" := true]> errorData)
        else ret (<["TEMP_HIGH" := false]> errorData)
    | None => ret errorData
    end
  else if String.eqb config "max_ph" then
    match deviceData !! "pH" with
    | Some pH =>
        if JS.gt pH (JS.ToNumber (JS.get configData "max_ph")) then
          (if negb (JS.truthy (errorData !! "PH_HIGH")) then
             sendFCMNotification deviceId (deviceId +:+ ": " +:+ PH_HIGH_MSG)
                                 GENERIC_WARN_MSG
           else ret tt) ;;
          ret (<["PH_HIGH" := true]> errorData)
        else ret (<["PH_HIGH" := false]> errorData)
    | None => ret errorData
    end
  else if String.eqb config "min_ph" then
    match deviceData !! "pH" with
    | Some pH =>
        if JS.lt pH (JS.ToNumber (JS.get configData "min_ph")) then
          (if negb (JS.truthy (errorData !! "PH_LOW")) then
             sendFCMNotification deviceId (deviceId +:+ ": " +:+ PH_LOW_MSG)
                                 GENERIC_WARN_MSG
           else ret tt) ;;
          ret (<["PH_LOW" := true]> errorData)
        else ret (<["PH_LOW" := false]> errorData)
    | None => ret errorData
    end
  else ret errorData.

(** The JavaScript function mutates [errorData] in place and returns nothing;
    here the final contents of that object are the result, next to the trace
    of the calls made. *)
Definition detectSystemErrors (deviceId : string) (deviceData : gmap string float)
    (configData : JS.object) (errorData : gmap string bool)
  : M (gmap string bool) :=
  errorData <- for_in (JS.keys configData)
                      (switch_config deviceId deviceData configData) errorData ;;
  errorData <-
    match deviceData !! "battery_voltage" with
    | Some battery_voltage =>
        if JS.lt battery_voltage MIN_BATTERY_VOLTAGE then
          (if negb (JS.truthy (errorData !! "BATTERY_LOW")) then
             sendFCMNotification deviceId (deviceId +:+ ": " +:+ BATTERY_LOW_MSG)
                                 GENERIC_WARN_MSG
           else ret tt) ;;
          ret (<["BATTERY_LOW" := true]> errorData)
        else ret (<["BATTERY_LOW" := false]> errorData)
    | None => ret errorData
    end ;;
  errorData <-
    match deviceData !! "internal_leak" with
    | Some internal_leak =>
        if JS.gt internal_leak MAX_LEAK_VOLTAGE then
          (if negb (JS.truthy (errorData !! "INTERNAL_LEAK_DETECTED")) then
             sendFCMNotification deviceId (deviceId +:+ " " +:+ INTERNAL_LEAK_MSG)
                                 GENERIC_WARN_MSG
           else ret tt) ;;
          ret (<["INTERNAL_LEAK_DETECTED" := true]> errorData)
        else ret (<["INTERNAL_LEAK_DETECTED" := false]> errorData)
    | None => ret errorData
    end ;;
  errorData <-
    match deviceData !! "leak" with
    | Some leak =>
        if JS.gt leak MAX_LEAK_VOLTAGE then
          (if negb (JS.truthy (errorData !! "LEAK_DETECTED")) then
             sendFCMNotification deviceId (deviceId +:+ ": " +:+ LEAK_MSG)
                                 GENERIC_WARN_MSG
           else ret tt) ;;
          ret (<["LEAK_DETECTED" := true]> errorData)
        else ret (<["LEAK_DETECTED" := false]> errorData)
    | None => ret errorData
    end ;;
  perform (firestore_set ERROR_COLLECTION deviceId (Errors errorData)) ;;
  ret errorData.

(** * iotStoreDeviceUpdates *)

(** A Pub/Sub message: the device identifier attribute and the JSON body. *)
Record message_t : Type := { attributes_deviceId : string; json : gmap string float }.

(** The handler of one sensor message. [now] is the value of
    [Timestamp.now()]; [configSnapshot] and [errorSnapshot] are what the two
    [get()] of the Config and Error documents of the device resolve to,
    [None] for a snapshot that does not exist. *)
Definition iotStoreDeviceUpdates (message : message_t) (now : Timestamp)
    (configSnapshot : option JS.object) (errorSnapshot : option (gmap string bool))
  : M unit :=
  let deviceId := attributes_deviceId message in
  let deviceData := json message in
  let stamped := {| fields := delete "timestamp" deviceData; timestamp := now |} in
  perform (database_ref_set deviceId stamped) ;;
  perform (firestore_set STATUS_COLLECTION deviceId (Readings stamped)) ;;
  perform (firestore_add HISTORY_COLLECTION deviceId HISTORY_COLLECTION (Readings stamped)) ;;
  piConfigData <-
    match configSnapshot with
    | None =>
        perform (firestore_set CONFIG_COLLECTION deviceId (Settings DEFAULT_CONFIG_DOC)) ;;
        ret DEFAULT_CONFIG_DOC
    | Some data => ret data
    end ;;
  match errorSnapshot with
  | None =>
      perform (firestore_set ERROR_COLLECTION deviceId (Errors DEFAULT_ERROR_DOC)) ;;
      ret tt
  | Some piErrorData =>
      detectSystemErrors deviceId (fields stamped) piConfigData piErrorData ;;
      ret tt
  end.

(** * The configuration relay *)

(** ** Base64, as [Buffer.toString("base64")] produces it *)

Module Base64.

Local Open Scope Z_scope.

Definition alphabet : string :=
  "ABCDEFGHIJKLMNOPQRSTUVWXYZabcdefghijklmnopqrstuvwxyz0123456789+/".

Definition pad : ascii := "="%char.

(** The character of a six-bit value. *)
Definition digit (v : Z) : ascii :=
  match String.get (Z.to_nat v) alphabet with
  | Some c => c
  | None => pad
  end.

Fixpoint index_from (i : Z) (c : ascii) (s : string) : option Z :=
  match s with
  | EmptyString => None
  | String c' s' => if Ascii.eqb c c' then Some i else index_from (i + 1) c s'
  end.

(** The six-bit value of a character of the alphabet. *)
Definition value_of (c : ascii) : option Z := index_from 0 c alphabet.

(** Three bytes give four characters; one or two trailing bytes give two or
    three characters and padding. *)
Fixpoint encode (bs : list Z) : list ascii :=
  match bs with
  | [] => []
  | [a] => [digit (a / 4); digit (a mod 4 * 16); pad; pad]
  | [a; b] => [digit (a / 4); digit (a mod 4 * 16 + b / 16); digit (b mod 16 * 4); pad]
  | a :: b :: c :: rest =>
      digit (a / 4) :: digit (a mod 4 * 16 + b / 16)
        :: digit (b mod 16 * 4 + c / 64) :: digit (c mod 64) :: encode rest
  end.

Fixpoint decode (cs : list ascii) : option (list Z) :=
  match cs with
  | [] => Some []
  | c1 :: c2 :: c3 :: c4 :: rest =>
      match value_of c1, value_of c2 with
      | Some v1, Some v2 =>
          if Ascii.eqb c3 pad then
            if Ascii.eqb c4 pad then
              match rest with [] => Some [v1 * 4 + v2 / 16] | _ => None end
            else None
          else
            match value_of c3 with
            | Some v3 =>
                if Ascii.eqb c4 pad then
                  match rest with
                  | [] => Some [v1 * 4 + v2 / 16; v2 mod 16 * 16 + v3 / 4]
                  | _ => None
                  end
                else
                  match value_of c4, decode rest with
                  | Some v4, Some bs =>
                      Some (v1 * 4 + v2 / 16 :: v2 mod 16 * 16 + v3 / 4
                              :: v3 mod 4 * 64 + v4 :: bs)
                  | _, _ => None
                  end
            | None => None
            end
      | _, _ => None
      end
  | _ => None
  end.

Definition bytes_of_string (s : string) : list Z :=
  map (fun c => Z.of_N (N_of_ascii c)) (String.list_ascii_of_string s).

Definition string_of_bytes (bs : list Z) : string :=
  String.string_of_list_ascii (map (fun b => ascii_of_N (Z.to_N b)) bs).

(** [Buffer.from(s).toString("base64")] *)
Definition of_string (s : string) : string :=
  String.string_of_list_ascii (encode (bytes_of_string s)).

(** The string a Base64 text with padding stands for (RFC 4648), if any. *)
Definition to_string (s : string) : option string :=
  string_of_bytes <$> decode (String.list_ascii_of_string s).

End Base64.

(** ** JSON.stringify on a configuration document *)

Module JSON.

Definition hex_digit (n : N) : ascii :=
  match String.get (N.to_nat n) "0123456789abcdef" with
  | Some c => c
  | None => "0"%char
  end.

(** One character of a string literal, as QuoteJSONString writes it. *)
Definition escape (c : ascii) : string :=
  let n := N_of_ascii c in
  if (n =? 8)%N then "\b"
  else if (n =? 9)%N then "\t"
  else if (n =? 10)%N then "\n"
  else if (n =? 12)%N then "\f"
  else if (n =? 13)%N then "\r"
  else if (n =? 34)%N then String "\"%char (String c EmptyString)
  else if (n =? 92)%N then "\\"
  else if (n <? 32)%N then
    "\u00" +:+ String (hex_digit (n / 16)) (String (hex_digit (n mod 16)) EmptyString)
  else String c EmptyString.

Definition quote : string := String (ascii_of_N 34) EmptyString.

Definition Quote (s : string) : string :=
  quote +:+ String.concat "" (map escape (String.list_ascii_of_string s)) +:+ quote.

Section Stringify.

(** Number::toString of ECMAScript, the shortest decimal that reads back as
    the number: a parameter of the model. *)
Variable Number_toString : float -> string.

Definition serialize (v : JS.value) : string :=
  match v with
  | JS.VNumber x => if is_finite x then Number_toString x else "null"
  | JS.VBoolean true => "true"
  | JS.VBoolean false => "false"
  end.

Definition stringify (o : JS.object) : string :=
  "{" +:+ String.concat "," (map (fun kv => Quote kv.1 +:+ ":" +:+ serialize kv.2) o) +:+ "}".

End Stringify.

End JSON.

(** ** generateRequest and iotDeviceConfigUpdate *)

(** [DeviceManagerClient.devicePath] of the Cloud IoT client library: it
    renders the path template of a device. *)
Definition devicePath (project location registry device : string) : string :=
  "projects/" +:+ project +:+ "/locations/" +:+ location
    +:+ "/registries/" +:+ registry +:+ "/devices/" +:+ device.

(** The change of a Config document. The trigger [onWrite] fires when the
    document is created, updated or deleted; [after_data] is
    [change.after.data()], the document after the write, and [None]
    (JavaScript's [undefined]) after a deletion. *)
Record change_t : Type := { after_data : option JS.object }.
Record context_t : Type := { params_deviceId : string }.

(** What is thrown: [Error(message)], or the [TypeError] of a built-in. *)
Inductive exception : Type :=
| Error (message : string)
| TypeError.

(** What a handler ends with: the calls it made, or what it threw. *)
Inductive outcome : Type :=
| Returned (t : list call)
| Thrown (e : exception).

Section Relay.

Variable Number_toString : float -> string.

(** [generateRequest] on a document. *)
Definition generateRequest (deviceId : string) (configData : JS.object) : request :=
  let formattedName := devicePath GCLOUD_PROJECT IOT_REGION REGISTRY_ID deviceId in
  let dataValue := Base64.of_string (JSON.stringify Number_toString configData) in
  {| name := formattedName; binaryData := dataValue |}.

(** The handler calls [generateRequest] with whatever [data()] returned. On
    [undefined], [JSON.stringify] returns [undefined] and [Buffer.from]
    throws a [TypeError] inside [generateRequest], before any request is
    built and before [modifyCloudToDeviceConfig] is called. *)
Definition iotDeviceConfigUpdate (change : change_t) (context : option context_t) : outcome :=
  match context with
  | Some context =>
      match after_data change with
      | Some configData =>
          let request := generateRequest (params_deviceId context) configData in
          Returned [client_modifyCloudToDeviceConfig request]
      | None => Thrown TypeError
      end
  | None => Thrown (Error "no context from trigger")
  end.

End Relay.

(** * The vocabulary of the properties *)

(** ** The conditions the evaluator checks

    The seven checks of [detectSystemErrors], each with the flag it
    maintains in the error document, the sensor field it reads and the
    notification it sends. *)

Inductive condition : Type :=
| TEMP_LOW | TEMP_HIGH | PH_HIGH | PH_LOW
| BATTERY_LOW | INTERNAL_LEAK_DETECTED | LEAK_DETECTED.

#[global] Instance condition_eq_dec : EqDecision condition.
Proof. solve_decision. Defined.

Definition conditions : list condition :=
  [TEMP_LOW; TEMP_HIGH; PH_HIGH; PH_LOW; BATTERY_LOW; INTERNAL_LEAK_DETECTED; LEAK_DETECTED].

Definition flag (C : condition) : string :=
  match C with
  | TEMP_LOW => "TEMP_LOW"
  | TEMP_HIGH => "TEMP_HIGH"
  | PH_HIGH => "PH_HIGH"
  | PH_LOW => "PH_LOW"
  | BATTERY_LOW => "BATTERY_LOW"
  | INTERNAL_LEAK_DETECTED => "INTERNAL_LEAK_DETECTED"
  | LEAK_DETECTED => "LEAK_DETECTED"
  end.

Definition sensor (C : condition) : string :=
  match C with
  | TEMP_LOW | TEMP_HIGH => "temperature"
  | PH_HIGH | PH_LOW => "pH"
  | BATTERY_LOW => "battery_voltage"
  | INTERNAL_LEAK_DETECTED => "internal_leak"
  | LEAK_DETECTED => "leak"
  end.

(** The message constant of each condition. *)
Definition condition_message (C : condition) : string :=
  match C with
  | TEMP_LOW => TEMP_LOW_MSG
  | TEMP_HIGH => TEMP_HIGH_MSG
  | PH_HIGH => PH_HIGH_MSG
  | PH_LOW => PH_LOW_MSG
  | BATTERY_LOW => BATTERY_LOW_MSG
  | INTERNAL_LEAK_DETECTED => INTERNAL_LEAK_MSG
  | LEAK_DETECTED => LEAK_MSG
  end.

(** The title the check of a condition passes to [sendFCMNotification]. *)
Definition sent_title (deviceId : string) (C : condition) : string :=
  match C with
  | INTERNAL_LEAK_DETECTED => deviceId +:+ " " +:+ INTERNAL_LEAK_MSG
  | _ => deviceId +:+ ": " +:+ condition_message C
  end.

(** The notification of a condition: what its check hands to [sendToTopic]. *)
Definition alert (deviceId : string) (C : condition) : FCM :=
  (deviceId,
   {| message_notification :=
        {| title := sent_title deviceId C; body := GENERIC_WARN_MSG; sound := "default" |} |},
   {| priority := "high"; timeToLive := 86400 |}).

(** How often a notification occurs in a trace. *)
Definition emitted (n : FCM) (t : list call) : nat :=
  length (filter (fun m => m = n) (notifications t)).

(** The configuration key that triggers a threshold check. *)
Definition threshold_of (config : string) : option condition :=
  if String.eqb config "min_temperature" then Some TEMP_LOW
  else if String.eqb config "max_temperature" then Some TEMP_HIGH
  else if String.eqb config "max_ph" then Some PH_HIGH
  else if String.eqb config "min_ph" then Some PH_LOW
  else None.

(** The comparison a check makes on a sensor value that is present. *)
Definition violates (configData : JS.object) (C : condition) (x : float) : bool :=
  match C with
  | TEMP_LOW => JS.lt x (JS.ToNumber (JS.get configData "min_temperature"))
  | TEMP_HIGH => JS.gt x (JS.ToNumber (JS.get configData "max_temperature"))
  | PH_HIGH => JS.gt x (JS.ToNumber (JS.get configData "max_ph"))
  | PH_LOW => JS.lt x (JS.ToNumber (JS.get configData "min_ph"))
  | BATTERY_LOW => JS.lt x MIN_BATTERY_VOLTAGE
  | INTERNAL_LEAK_DETECTED => JS.gt x MAX_LEAK_VOLTAGE
  | LEAK_DETECTED => JS.gt x MAX_LEAK_VOLTAGE
  end.

(** The outcome of a check that runs: [None] when the sensor field is
    absent from the reading. *)
Definition verdict (deviceData : gmap string float) (configData : JS.object)
    (C : condition) : option bool :=
  violates configData C <$> deviceData !! sensor C.

(** The checks one evaluation runs, in order: one per threshold key of the
    configuration, then the three fixed ones. *)
Definition checks (configData : JS.object) : list condition :=
  (omap threshold_of (JS.keys configData)
   ++ [BATTERY_LOW; INTERNAL_LEAK_DETECTED; LEAK_DETECTED])%list.

(** One check, as every copy of the pattern in the source does it. *)
Definition transition (deviceId : string) (C : condition) (v : option bool)
    (errorData : gmap string bool) : M (gmap string bool) :=
  match v with
  | None => ret errorData
  | Some true =>
      (<[flag C := true]> errorData,
       if JS.truthy (errorData !! flag C) then []
       else [messaging_sendToTopic deviceId (alert deviceId C).1.2 (alert deviceId C).2])
  | Some false => ret (<[flag C := false]> errorData)
  end.

Fixpoint run (deviceId : string) (V : condition -> option bool) (cs : list condition)
    (errorData : gmap string bool) : M (gmap string bool) :=
  match cs with
  | [] => ret errorData
  | C :: cs' => errorData' <- transition deviceId C (V C) errorData ;;
                run deviceId V cs' errorData'
  end.

(** The configuration key of a threshold condition; the fixed checks have
    none. *)
Definition threshold_key (C : condition) : option string :=
  match C with
  | TEMP_LOW => Some "min_temperature"
  | TEMP_HIGH => Some "max_temperature"
  | PH_HIGH => Some "max_ph"
  | PH_LOW => Some "min_ph"
  | _ => None
  end.

(** A check notifies when it finds a violation while its flag is not set. *)
Definition fires (v : option bool) (errorData : gmap string bool) (C : condition) : bool :=
  match v with
  | Some true => negb (JS.truthy (errorData !! flag C))
  | _ => false
  end.

(** Whether a reading is out of range for a condition: its check runs and
    finds a violation. *)
Definition out_of_range (deviceData : gmap string float) (configData : JS.object)
    (C : condition) : bool :=
  bool_decide (C ∈ checks configData)
  && match verdict deviceData configData C with Some b => b | None => false end.

(** The writes to Firestore documents in a trace. *)
Definition writes (t : list call) : list (string * string * document) :=
  omap (fun c => match c with
                 | firestore_set collection doc data => Some (collection, doc, data)
                 | _ => None
                 end) t.

(** The error documents the handler can reach from the default one. *)
Inductive reachable : gmap string bool -> Prop :=
| reachable_default : reachable DEFAULT_ERROR_DOC
| reachable_evaluation deviceId deviceData configData errorData :
    reachable errorData ->
    reachable (detectSystemErrors deviceId deviceData configData errorData).1.

(** ** Sample inputs *)

Definition hot_reading : gmap string float := {[ "temperature" := 30%float ]}.
Definition hotter_reading : gmap string float := {[ "temperature" := 31%float ]}.
Definition threshold_reading : gmap string float := {[ "temperature" := 25%float ]}.
Definition ph_reading : gmap string float := {[ "pH" := 11%float ]}.
Definition mild_reading : gmap string float := {[ "temperature" := 20%float ]}.
Definition battery_reading : gmap string float := {[ "battery_voltage" := 3.5%float ]}.
Definition charged_reading : gmap string float := {[ "battery_voltage" := 4.5%float ]}.
Definition ph_battery_reading : gmap string float :=
  <["pH" := 11%float]> (<["battery_voltage" := 3.0%float]> ∅).

(** An error document with one flag set. *)
Definition temp_high_set : gmap string bool := <["TEMP_HIGH" := true]> DEFAULT_ERROR_DOC.
Definition ph_low_set : gmap string bool := <["PH_LOW" := true]> DEFAULT_ERROR_DOC.

(** ** Sequences of evaluations, addressees and the document store *)

(** The call that sends a notification. *)
Definition send (n : FCM) : call := messaging_sendToTopic n.1.1 n.1.2 n.2.

(** What a call addresses: the database reference, the document identifier,
    the topic or the device path. *)
Definition addressee (c : call) : string :=
  match c with
  | database_ref_set ref _ => ref
  | firestore_set _ doc _ => doc
  | firestore_add _ doc _ _ => doc
  | messaging_sendToTopic topic _ _ => topic
  | client_modifyCloudToDeviceConfig req => name req
  end.

(** The evaluations of successive readings of one device, each starting
    from the error document the previous one left. *)
Fixpoint replay (deviceId : string) (inputs : list (gmap string float * JS.object))
    (errorData : gmap string bool) : M (gmap string bool) :=
  match inputs with
  | [] => ret errorData
  | (deviceData, configData) :: inputs' =>
      errorData' <- detectSystemErrors deviceId deviceData configData errorData ;;
      replay deviceId inputs' errorData'
  end.

(** The Config and Error collections of Firestore, by device identifier. *)
Record firestore_t : Type :=
  { Config_docs : gmap string JS.object; Error_docs : gmap string (gmap string bool) }.

(** [doc(id).set(data)] replaces the document. *)
Definition write (db : firestore_t) (w : string * string * document) : firestore_t :=
  match w with
  | (collection, doc, Settings c) =>
      if String.eqb collection CONFIG_COLLECTION
      then {| Config_docs := <[doc := c]> (Config_docs db); Error_docs := Error_docs db |}
      else db
  | (collection, doc, Errors e) =>
      if String.eqb collection ERROR_COLLECTION
      then {| Config_docs := Config_docs db; Error_docs := <[doc := e]> (Error_docs db) |}
      else db
  | _ => db
  end.

(** One message handled against the store: the two snapshots are read from
    it and the writes of the handler are applied to it in order. *)
Definition deliver (db : firestore_t) (message : message_t) (now : Timestamp)
  : firestore_t * list call :=
  let deviceId := attributes_deviceId message in
  let t := (iotStoreDeviceUpdates message now
              (Config_docs db !! deviceId) (Error_docs db !! deviceId)).2 in
  (foldl write db (writes t), t).

(** More sample inputs. *)
Definition level_reading : gmap string float := {[ "water_level" := 3%float ]}.
Definition stamped_reading : gmap string float :=
  <["timestamp" := 5%float]> hot_reading.
Definition pump_on_config : JS.object :=
  [ ("target_ph", JS.VNumber 6);
    ("min_temperature", JS.VNumber 15);
    ("max_temperature", JS.VNumber 25);
    ("peristaltic_pump_on", JS.VBoolean true);
    ("min_ph", JS.VNumber 5);
    ("max_ph", JS.VNumber 10) ].
Definition empty_store : firestore_t := {| Config_docs := ∅; Error_docs := ∅ |}.
Definition hot_message : message_t :=
  {| attributes_deviceId := "pi"; json := hot_reading |}.
Definition epoch : Timestamp := {| seconds := 0; nanoseconds := 0 |}.
Definition pi_context : context_t := {| params_deviceId := "pi" |}.
Definition written_change : change_t := {| after_data := Some DEFAULT_CONFIG_DOC |}.
Definition deleted_change : change_t := {| after_data := None |}.

(** * Properties *)

(** ** The model on the scenarios of the specification *)

(** Temperature 30 against the defaults sets TEMP_HIGH and sends one
    notification; temperature 20 next clears the flag silently. *)
Example temperature_scenario :
  let first := detectSystemErrors "pi" hot_reading DEFAULT_CONFIG_DOC DEFAULT_ERROR_DOC in
  let second := detectSystemErrors "pi" mild_reading DEFAULT_CONFIG_DOC first.1 in
  first.1 !! "TEMP_HIGH" = Some true
  /\ map (fun n => title (message_notification n.1.2)) (notifications first.2)
     = ["pi: TEMPERATURE TOO HIGH..."]
  /\ second.1 !! "TEMP_HIGH" = Some false
  /\ notifications second.2 = [].
Proof. repeat split. Qed.

(** Battery voltage 3.5 sets BATTERY_LOW with no configuration entry at
    all; 4.5 next clears it. *)
Example battery_scenario :
  let first := detectSystemErrors "pi" battery_reading [] DEFAULT_ERROR_DOC in
  let second := detectSystemErrors "pi" charged_reading [] first.1 in
  first.1 !! "BATTERY_LOW" = Some true
  /\ notifications first.2 = [alert "pi" BATTERY_LOW]
  /\ second.1 !! "BATTERY_LOW" = Some false
  /\ notifications second.2 = [].
Proof. repeat split. Qed.

(** The request for a document without numbers. *)
Example generateRequest_pump_off (Number_toString : float -> string) :
  generateRequest Number_toString "pi" [("peristaltic_pump_on", JS.VBoolean false)] =
  {| name := "projects/piponics/locations/us-central1/registries/RaspberryPis/devices/pi";
     binaryData := "eyJwZXJpc3RhbHRpY19wdW1wX29uIjpmYWxzZX0=" |}.
Proof. reflexivity. Qed.

(** ** The trace monad *)

Lemma bind_ret_l {A B : Type} (a : A) (f : A -> M B) : bind (ret a) f = f a.
Proof. unfold bind, ret. destruct (f a); reflexivity. Qed.

Lemma bind_fst {A B : Type} (m : M A) (f : A -> M B) : (bind m f).1 = (f m.1).1.
Proof. unfold bind. destruct m as [a t1]. simpl. destruct (f a); reflexivity. Qed.

Lemma bind_snd {A B : Type} (m : M A) (f : A -> M B) :
  (bind m f).2 = (m.2 ++ (f m.1).2)%list.
Proof. unfold bind. destruct m as [a t1]. simpl. destruct (f a); reflexivity. Qed.

Lemma bind_assoc {A B C : Type} (m : M A) (f : A -> M B) (g : B -> M C) :
  bind (bind m f) g = bind m (fun a => bind (f a) g).
Proof.
  unfold bind. destruct m as [a t1]. destruct (f a) as [b t2].
  destruct (g b) as [c t3]. by rewrite app_assoc.
Qed.

Lemma notifications_app (t1 t2 : list call) :
  notifications (t1 ++ t2) = (notifications t1 ++ notifications t2)%list.
Proof. apply omap_app. Qed.

Lemma emitted_app (n : FCM) (t1 t2 : list call) :
  emitted n (t1 ++ t2) = emitted n t1 + emitted n t2.
Proof. unfold emitted. by rewrite notifications_app, filter_app, length_app. Qed.

(** ** Conditions, flags and notifications are in one-to-one correspondence *)

Lemma flag_inj (C C' : condition) : flag C = flag C' -> C = C'.
Proof. destruct C, C'; simpl; intros H; first [reflexivity | discriminate H]. Qed.

Lemma append_inv_head (p s s' : string) : p +:+ s = p +:+ s' -> s = s'.
Proof. induction p as [|a p IH]; simpl; intros H; [exact H | injection H as H; auto]. Qed.

Lemma sent_title_inj (deviceId : string) (C C' : condition) :
  sent_title deviceId C = sent_title deviceId C' -> C = C'.
Proof.
  destruct C, C'; unfold sent_title; simpl; intros H;
    first [reflexivity | apply append_inv_head in H; discriminate H].
Qed.

Lemma alert_inj (deviceId : string) (C C' : condition) :
  alert deviceId C = alert deviceId C' -> C = C'.
Proof.
  unfold alert. intros H. apply (sent_title_inj deviceId). congruence.
Qed.

(** ** The source's checks are instances of [transition] *)

Ltac check_cases :=
  unfold verdict, transition, violates; simpl;
  repeat match goal with
         | |- context [?r !! ?k] =>
             match type of r with
             | gmap string float => destruct (r !! k) as [?|]; simpl
             end
         | |- context [if JS.lt ?x ?y then _ else _] => destruct (JS.lt x y); simpl
         | |- context [if JS.gt ?x ?y then _ else _] => destruct (JS.gt x y); simpl
         | |- context [JS.truthy ?o] => destruct (JS.truthy o); simpl
         end;
  try reflexivity.

Lemma switch_config_transition (deviceId : string) (deviceData : gmap string float)
    (configData : JS.object) (config : string) (errorData : gmap string bool) :
  switch_config deviceId deviceData configData config errorData =
  match threshold_of config with
  | Some C => transition deviceId C (verdict deviceData configData C) errorData
  | None => ret errorData
  end.
Proof.
  unfold switch_config, threshold_of.
  destruct (String.eqb config "min_temperature"); [check_cases|].
  destruct (String.eqb config "max_temperature"); [check_cases|].
  destruct (String.eqb config "max_ph"); [check_cases|].
  destruct (String.eqb config "min_ph"); [check_cases|].
  reflexivity.
Qed.

Lemma bind_ext {A B : Type} (m : M A) (f g : A -> M B) :
  (forall a, f a = g a) -> bind m f = bind m g.
Proof. intros H. unfold bind. destruct m as [a t]. by rewrite H. Qed.

Lemma run_app (deviceId : string) (V : condition -> option bool)
    (cs cs' : list condition) (errorData : gmap string bool) :
  run deviceId V (cs ++ cs') errorData =
  (errorData' <- run deviceId V cs errorData ;; run deviceId V cs' errorData').
Proof.
  revert errorData. induction cs as [|C cs IH]; intros errorData.
  - cbn [app run]. by rewrite bind_ret_l.
  - cbn [app run]. rewrite bind_assoc. apply bind_ext. intros e. apply IH.
Qed.

Lemma for_in_run (deviceId : string) (deviceData : gmap string float)
    (configData : JS.object) (ks : list string) (errorData : gmap string bool) :
  for_in ks (switch_config deviceId deviceData configData) errorData =
  run deviceId (verdict deviceData configData) (omap threshold_of ks) errorData.
Proof.
  revert errorData. induction ks as [|k ks IH]; intros errorData; [reflexivity|].
  cbn [for_in omap list_omap]. rewrite switch_config_transition.
  destruct (threshold_of k) as [C|]; cbn [run].
  - apply bind_ext. intros e. apply IH.
  - rewrite bind_ret_l. apply IH.
Qed.

(** [detectSystemErrors] runs its checks in order and then writes the
    resulting error document. *)
Lemma detectSystemErrors_run (deviceId : string) (deviceData : gmap string float)
    (configData : JS.object) (errorData : gmap string bool) :
  detectSystemErrors deviceId deviceData configData errorData =
  (errorData' <- run deviceId (verdict deviceData configData) (checks configData) errorData ;;
   perform (firestore_set ERROR_COLLECTION deviceId (Errors errorData')) ;;
   ret errorData').
Proof.
  unfold detectSystemErrors, checks. rewrite for_in_run, run_app.
  rewrite bind_assoc. apply bind_ext. intros e0. cbn [run].
  rewrite bind_assoc.
  replace (transition deviceId BATTERY_LOW (verdict deviceData configData BATTERY_LOW) e0)
    with (match deviceData !! "battery_voltage" with
          | Some battery_voltage =>
              if JS.lt battery_voltage MIN_BATTERY_VOLTAGE then
                (if negb (JS.truthy (e0 !! "BATTERY_LOW")) then
                   sendFCMNotification deviceId (deviceId +:+ ": " +:+ BATTERY_LOW_MSG)
                     GENERIC_WARN_MSG
                 else ret tt) ;;
                ret (<["BATTERY_LOW" := true]> e0)
              else ret (<["BATTERY_LOW" := false]> e0)
          | None => ret e0
          end) by check_cases.
  apply bind_ext. intros e1. rewrite bind_assoc.
  replace (transition deviceId INTERNAL_LEAK_DETECTED
             (verdict deviceData configData INTERNAL_LEAK_DETECTED) e1)
    with (match deviceData !! "internal_leak" with
          | Some internal_leak =>
              if JS.gt internal_leak MAX_LEAK_VOLTAGE then
                (if negb (JS.truthy (e1 !! "INTERNAL_LEAK_DETECTED")) then
                   sendFCMNotification deviceId (deviceId +:+ " " +:+ INTERNAL_LEAK_MSG)
                     GENERIC_WARN_MSG
                 else ret tt) ;;
                ret (<["INTERNAL_LEAK_DETECTED" := true]> e1)
              else ret (<["INTERNAL_LEAK_DETECTED" := false]> e1)
          | None => ret e1
          end) by check_cases.
  apply bind_ext. intros e2. rewrite bind_assoc.
  replace (transition deviceId LEAK_DETECTED (verdict deviceData configData LEAK_DETECTED) e2)
    with (match deviceData !! "leak" with
          | Some leak =>
              if JS.gt leak MAX_LEAK_VOLTAGE then
                (if negb (JS.truthy (e2 !! "LEAK_DETECTED")) then
                   sendFCMNotification deviceId (deviceId +:+ ": " +:+ LEAK_MSG)
                     GENERIC_WARN_MSG
                 else ret tt) ;;
                ret (<["LEAK_DETECTED" := true]> e2)
              else ret (<["LEAK_DETECTED" := false]> e2)
          | None => ret e2
          end) by check_cases.
  apply bind_ext. intros e3. by rewrite bind_ret_l.
Qed.

(** ** One check *)

Lemma transition_notifications (deviceId : string) (C : condition) (v : option bool)
    (errorData : gmap string bool) :
  notifications (transition deviceId C v errorData).2 =
  if fires v errorData C then [alert deviceId C] else [].
Proof.
  destruct v as [[|]|]; simpl; try reflexivity.
  destruct (JS.truthy (errorData !! flag C)); reflexivity.
Qed.

Lemma transition_flag (deviceId : string) (C : condition) (v : option bool)
    (errorData : gmap string bool) :
  (transition deviceId C v errorData).1 !! flag C =
  match v with Some b => Some b | None => errorData !! flag C end.
Proof. destruct v as [[|]|]; simpl; by rewrite ?lookup_insert_eq. Qed.

Lemma transition_frame (deviceId : string) (C : condition) (v : option bool)
    (errorData : gmap string bool) (k : string) :
  k ≠ flag C -> (transition deviceId C v errorData).1 !! k = errorData !! k.
Proof. intros H. destruct v as [[|]|]; simpl; by rewrite ?lookup_insert_ne. Qed.

Lemma transition_emitted (deviceId : string) (C C' : condition) (v : option bool)
    (errorData : gmap string bool) :
  emitted (alert deviceId C') (transition deviceId C v errorData).2 =
  if decide (C = C') then (if fires v errorData C then 1 else 0) else 0.
Proof.
  unfold emitted. rewrite transition_notifications.
  destruct (fires v errorData C); [|by destruct (decide (C = C'))].
  rewrite filter_cons, filter_nil.
  destruct (decide (C = C')) as [->|Hne].
  - by rewrite decide_True.
  - rewrite decide_False; [reflexivity|]. intros H. by apply alert_inj in H.
Qed.

(** ** A run of checks *)

Section Run.

Variable deviceId : string.
Variable V : condition -> option bool.

Lemma run_frame (cs : list condition) (errorData : gmap string bool) (k : string) :
  (forall C, C ∈ cs -> k ≠ flag C) ->
  (run deviceId V cs errorData).1 !! k = errorData !! k.
Proof.
  revert errorData. induction cs as [|C cs IH]; intros errorData Hk; [reflexivity|].
  cbn [run]. rewrite bind_fst, IH.
  - apply transition_frame, Hk. by left.
  - intros C' HC'. apply Hk. by right.
Qed.

Lemma run_flag (cs : list condition) (errorData : gmap string bool) (C : condition) :
  (run deviceId V cs errorData).1 !! flag C =
  if decide (C ∈ cs)
  then match V C with Some b => Some b | None => errorData !! flag C end
  else errorData !! flag C.
Proof.
  revert errorData. induction cs as [|C0 cs IH]; intros errorData.
  - by rewrite decide_False by apply not_elem_of_nil.
  - cbn [run]. rewrite bind_fst, IH.
    destruct (decide (C0 = C)) as [->|Hne].
    + rewrite (decide_True (P := C ∈ C :: cs)) by (by left).
      rewrite transition_flag.
      destruct (V C); by destruct (decide (C ∈ cs)).
    + rewrite transition_frame by (intros H; by apply flag_inj in H).
      destruct (decide (C ∈ cs)) as [Hin|Hnin].
      * by rewrite decide_True by (by right).
      * rewrite decide_False; [reflexivity|].
        intros [->|?]%elem_of_cons; [by apply Hne | by apply Hnin].
Qed.

Lemma run_emitted (cs : list condition) (errorData : gmap string bool) (C : condition) :
  emitted (alert deviceId C) (run deviceId V cs errorData).2 =
  if decide (C ∈ cs) then (if fires (V C) errorData C then 1 else 0) else 0.
Proof.
  revert errorData. induction cs as [|C0 cs IH]; intros errorData.
  - by rewrite decide_False by apply not_elem_of_nil.
  - cbn [run]. rewrite bind_snd, emitted_app, transition_emitted, IH.
    destruct (decide (C0 = C)) as [->|Hne].
    + rewrite (decide_True (P := C ∈ C :: cs)) by (by left).
      unfold fires at 2. rewrite transition_flag. unfold fires.
      destruct (V C) as [[|]|]; destruct (decide (C ∈ cs)); simpl; lia.
    + unfold fires at 1.
      rewrite transition_frame by (intros H; by apply flag_inj in H).
      fold (fires (V C) errorData C).
      destruct (decide (C ∈ cs)) as [Hin|Hnin].
      * by rewrite decide_True by (by right).
      * rewrite decide_False; [reflexivity|].
        intros [->|?]%elem_of_cons; [by apply Hne | by apply Hnin].
Qed.

Lemma run_notifications_alert (cs : list condition) (errorData : gmap string bool)
    (n : FCM) :
  n ∈ notifications (run deviceId V cs errorData).2 ->
  exists C, C ∈ cs /\ n = alert deviceId C.
Proof.
  revert errorData. induction cs as [|C0 cs IH]; intros errorData.
  - simpl. by intros ?%elem_of_nil.
  - cbn [run]. rewrite bind_snd, notifications_app, transition_notifications.
    intros [H|H]%elem_of_app.
    + destruct (fires (V C0) errorData C0).
      * apply list_elem_of_singleton in H. exists C0. split; [by left|done].
      * by apply elem_of_nil in H.
    + destruct (IH _ H) as (C & HC & ->). exists C. split; [by right|done].
Qed.

End Run.

(** ** Which checks an evaluation runs *)

Lemma threshold_of_key (k : string) (C : condition) :
  threshold_of k = Some C <-> threshold_key C = Some k.
Proof.
  unfold threshold_of.
  destruct (String.eqb_spec k "min_temperature") as [->|H1].
  { split; [intros [= <-]; reflexivity | destruct C; intros E; first [reflexivity | discriminate E]]. }
  destruct (String.eqb_spec k "max_temperature") as [->|H2].
  { split; [intros [= <-]; reflexivity | destruct C; intros E; first [reflexivity | discriminate E]]. }
  destruct (String.eqb_spec k "max_ph") as [->|H3].
  { split; [intros [= <-]; reflexivity | destruct C; intros E; first [reflexivity | discriminate E]]. }
  destruct (String.eqb_spec k "min_ph") as [->|H4].
  { split; [intros [= <-]; reflexivity | destruct C; intros E; first [reflexivity | discriminate E]]. }
  split; [discriminate|]. destruct C; intros E; first [discriminate E | inversion E; congruence].
Qed.

Lemma elem_of_checks (configData : JS.object) (C : condition) :
  C ∈ checks configData <->
  match threshold_key C with
  | Some k => k ∈ JS.keys configData
  | None => True
  end.
Proof.
  unfold checks. rewrite elem_of_app, list_elem_of_omap. split.
  - intros [(k & Hk & HC)|Hfix].
    + apply threshold_of_key in HC. by rewrite HC.
    + destruct C; simpl; try exact I;
        repeat (apply elem_of_cons in Hfix as [Hfix|Hfix]; [discriminate Hfix|]);
        by apply elem_of_nil in Hfix.
  - destruct (threshold_key C) as [k|] eqn:HC.
    + intros Hk. left. exists k. by rewrite threshold_of_key.
    + intros _. right. destruct C; try discriminate HC;
        repeat first [by left | right].
Qed.

(** ** The result of an evaluation, flag by flag *)

Section Evaluation.

Variables (deviceId : string) (deviceData : gmap string float).
Variables (configData : JS.object) (errorData : gmap string bool).

Let result := detectSystemErrors deviceId deviceData configData errorData.

Lemma detectSystemErrors_fst :
  result.1 =
  (run deviceId (verdict deviceData configData) (checks configData) errorData).1.
Proof.
  unfold result. rewrite detectSystemErrors_run, bind_fst, bind_fst. reflexivity.
Qed.

Lemma detectSystemErrors_notifications :
  notifications result.2 =
  notifications
    (run deviceId (verdict deviceData configData) (checks configData) errorData).2.
Proof.
  unfold result. rewrite detectSystemErrors_run, bind_snd, bind_snd, notifications_app.
  simpl. by rewrite app_nil_r.
Qed.

(** The write of the error document closes the trace. *)
Lemma detectSystemErrors_persists :
  exists t, result.2 =
            (t ++ [firestore_set ERROR_COLLECTION deviceId (Errors result.1)])%list.
Proof.
  unfold result. rewrite detectSystemErrors_run, bind_fst, bind_fst, bind_snd, bind_snd.
  simpl. eauto.
Qed.

Lemma detectSystemErrors_flag (C : condition) :
  result.1 !! flag C =
  if decide (C ∈ checks configData)
  then match verdict deviceData configData C with
       | Some b => Some b
       | None => errorData !! flag C
       end
  else errorData !! flag C.
Proof. rewrite detectSystemErrors_fst. apply run_flag. Qed.

Lemma detectSystemErrors_frame (k : string) :
  (forall C, k ≠ flag C) -> result.1 !! k = errorData !! k.
Proof. intros H. rewrite detectSystemErrors_fst. apply run_frame. auto. Qed.

Lemma detectSystemErrors_emitted (C : condition) :
  emitted (alert deviceId C) result.2 =
  if decide (C ∈ checks configData)
  then (if fires (verdict deviceData configData C) errorData C then 1 else 0)
  else 0.
Proof.
  unfold emitted. rewrite detectSystemErrors_notifications. apply run_emitted.
Qed.

(** Edge form: a notification is sent exactly when the flag goes from
    unset to set. *)
Lemma detectSystemErrors_edge (C : condition) :
  emitted (alert deviceId C) result.2 =
  if negb (JS.truthy (errorData !! flag C)) && JS.truthy (result.1 !! flag C)
  then 1 else 0.
Proof.
  rewrite detectSystemErrors_emitted, detectSystemErrors_flag. unfold fires.
  destruct (decide (C ∈ checks configData));
    destruct (verdict deviceData configData C) as [[|]|];
    destruct (errorData !! flag C) as [[|]|]; reflexivity.
Qed.

Lemma detectSystemErrors_alerts (n : FCM) :
  n ∈ notifications result.2 -> exists C, n = alert deviceId C.
Proof.
  rewrite detectSystemErrors_notifications.
  intros (C & _ & ->)%run_notifications_alert. eauto.
Qed.

End Evaluation.

Lemma emitted_elem_of (n : FCM) (t : list call) :
  n ∈ notifications t <-> 0 < emitted n t.
Proof.
  unfold emitted. split.
  - intros H. assert (Hin : n ∈ filter (fun m => m = n) (notifications t))
      by by apply list_elem_of_filter.
    destruct (filter _ _); [by apply elem_of_nil in Hin | simpl; lia].
  - intros H. destruct (filter (fun m => m = n) (notifications t)) as [|m l] eqn:E;
      [simpl in H; lia|].
    assert (Hm : m ∈ filter (fun m => m = n) (notifications t)) by (rewrite E; by left).
    apply list_elem_of_filter in Hm as [-> Hm]. exact Hm.
Qed.

(** ** Strictness of the comparisons *)

Lemma ltb_irrefl (x : float) : PrimFloat.ltb x x = false.
Proof.
  rewrite ltb_spec. unfold SFltb.
  destruct (Prim2SF x) as [s|s| |s m e]; simpl; try reflexivity; try (by destruct s).
  destruct s; by rewrite Z.compare_refl, Pos.compare_cont_refl.
Qed.

Lemma violates_threshold_itself (configData : JS.object) (C : condition)
    (k : string) (x : float) :
  threshold_key C = Some k -> JS.get configData k = Some (JS.VNumber x) ->
  violates configData C x = false.
Proof.
  destruct C; intros [= <-] Hget; simpl; rewrite Hget; apply ltb_irrefl.
Qed.

Lemma get_Some_keys (o : JS.object) (k : string) (v : JS.value) :
  JS.get o k = Some v -> k ∈ JS.keys o.
Proof.
  induction o as [|[k' v'] o IH]; simpl; [discriminate|].
  destruct (String.eqb_spec k k') as [->|Hne].
  - intros _. by left.
  - intros H. right. by apply IH.
Qed.

(** A check that runs decides its flag by its comparison alone. *)
Lemma detectSystemErrors_checked (deviceId : string) (deviceData : gmap string float)
    (configData : JS.object) (errorData : gmap string bool) (C : condition) (x : float) :
  C ∈ checks configData -> deviceData !! sensor C = Some x ->
  (detectSystemErrors deviceId deviceData configData errorData).1 !! flag C =
  Some (violates configData C x).
Proof.
  intros HC Hx. rewrite detectSystemErrors_flag, decide_True by done.
  unfold verdict. by rewrite Hx.
Qed.

Lemma out_of_range_flag (deviceId : string) (deviceData : gmap string float)
    (configData : JS.object) (errorData : gmap string bool) (C : condition) :
  out_of_range deviceData configData C = true ->
  (detectSystemErrors deviceId deviceData configData errorData).1 !! flag C = Some true.
Proof.
  unfold out_of_range. intros [HC Hv]%andb_prop. apply bool_decide_eq_true in HC.
  rewrite detectSystemErrors_flag, decide_True by done.
  by destruct (verdict deviceData configData C) as [[|]|].
Qed.

(** * The claims on [detectSystemErrors] *)

(** C1. In one evaluation the notification of a condition is sent exactly
    when the flag of that condition was not set in the prior error document
    and is set in the resulting one, and then once; nothing else is sent.
    A flag that goes from set to cleared sends nothing, and two consecutive
    out-of-range readings for one condition, starting from a cleared flag,
    send one notification in all. *)
Theorem notification_on_rising_edge_only
    (deviceId : string) (deviceData : gmap string float) (configData : JS.object)
    (errorData : gmap string bool) (C : condition) :
  let result := detectSystemErrors deviceId deviceData configData errorData in
  (alert deviceId C ∈ notifications result.2 <->
     JS.truthy (errorData !! flag C) = false /\ result.1 !! flag C = Some true)
  /\ (forall n, n ∈ notifications result.2 -> exists C', n = alert deviceId C')
  /\ emitted (alert deviceId C) result.2 <= 1
  /\ (JS.truthy (errorData !! flag C) = true -> result.1 !! flag C = Some false ->
      alert deviceId C ∉ notifications result.2)
  /\ (forall (deviceData' : gmap string float) (configData' : JS.object),
        JS.truthy (errorData !! flag C) = false ->
        out_of_range deviceData configData C = true ->
        out_of_range deviceData' configData' C = true ->
        let result' := detectSystemErrors deviceId deviceData' configData' result.1 in
        result'.1 !! flag C = Some true /\
        emitted (alert deviceId C) (result.2 ++ result'.2) = 1).
Proof.
  intros result. subst result.
  pose proof (detectSystemErrors_edge deviceId deviceData configData errorData C) as Hedge.
  split; [split|split; [|split; [|split]]].
  - intros Hin%emitted_elem_of. rewrite Hedge in Hin.
    destruct (JS.truthy (errorData !! flag C)); [simpl in Hin; lia|].
    split; [reflexivity|].
    destruct (_ !! flag C) as [[|]|]; simpl in Hin; first [reflexivity | lia].
  - intros [Hprior Hnext]. apply emitted_elem_of. rewrite Hedge, Hprior, Hnext.
    simpl. lia.
  - apply detectSystemErrors_alerts.
  - rewrite Hedge. destruct (_ && _); lia.
  - intros Hprior Hnext Hin%emitted_elem_of. rewrite Hedge, Hprior in Hin.
    simpl in Hin. lia.
  - intros deviceData' configData' Hprior Hout Hout' result'. subst result'.
    split; [by apply out_of_range_flag|].
    rewrite emitted_app, Hedge, detectSystemErrors_edge.
    rewrite (out_of_range_flag _ _ _ _ _ Hout), (out_of_range_flag _ _ _ _ _ Hout').
    rewrite Hprior. reflexivity.
Qed.

Lemma notification_on_rising_edge_only_witness :
  JS.truthy (DEFAULT_ERROR_DOC !! flag TEMP_HIGH) = false
  /\ out_of_range hot_reading DEFAULT_CONFIG_DOC TEMP_HIGH = true
  /\ out_of_range hotter_reading DEFAULT_CONFIG_DOC TEMP_HIGH = true
  /\ emitted (alert "pi" TEMP_HIGH)
       ((detectSystemErrors "pi" hot_reading DEFAULT_CONFIG_DOC DEFAULT_ERROR_DOC).2
        ++ (detectSystemErrors "pi" hotter_reading DEFAULT_CONFIG_DOC
              (detectSystemErrors "pi" hot_reading DEFAULT_CONFIG_DOC DEFAULT_ERROR_DOC).1).2)
     = 1.
Proof.
  assert (Hprior : JS.truthy (DEFAULT_ERROR_DOC !! flag TEMP_HIGH) = false)
    by reflexivity.
  assert (Hfirst : out_of_range hot_reading DEFAULT_CONFIG_DOC TEMP_HIGH = true)
    by (vm_compute; reflexivity).
  assert (Hsecond : out_of_range hotter_reading DEFAULT_CONFIG_DOC TEMP_HIGH = true)
    by (vm_compute; reflexivity).
  repeat (split; [assumption|]).
  apply (notification_on_rising_edge_only
           "pi" hot_reading DEFAULT_CONFIG_DOC DEFAULT_ERROR_DOC TEMP_HIGH);
    assumption.
Defined.

(** C3. When the reading lacks the sensor field of a condition, the flag of
    that condition comes out as it went in; so does WATER_LEVEL_LOW when the
    reading has no water level. *)
Theorem absent_sensor_keeps_flags
    (deviceId : string) (deviceData : gmap string float) (configData : JS.object)
    (errorData : gmap string bool) :
  let errorData' := (detectSystemErrors deviceId deviceData configData errorData).1 in
  (forall C, deviceData !! sensor C = None ->
             errorData' !! flag C = errorData !! flag C)
  /\ (deviceData !! "water_level" = None ->
      errorData' !! "WATER_LEVEL_LOW" = errorData !! "WATER_LEVEL_LOW").
Proof.
  intros errorData'. subst errorData'. split.
  - intros C Habsent. rewrite detectSystemErrors_flag. unfold verdict.
    rewrite Habsent. simpl. by destruct (decide _).
  - intros _. apply detectSystemErrors_frame. intros C. by destruct C.
Qed.

Lemma absent_sensor_keeps_flags_witness :
  ph_reading !! sensor TEMP_HIGH = None
  /\ (detectSystemErrors "pi" ph_reading DEFAULT_CONFIG_DOC temp_high_set).1
     !! flag TEMP_HIGH = temp_high_set !! flag TEMP_HIGH
  /\ temp_high_set !! flag TEMP_HIGH = Some true.
Proof.
  assert (Habsent : ph_reading !! sensor TEMP_HIGH = None) by reflexivity.
  split; [exact Habsent|]. split; [|reflexivity].
  exact (proj1 (absent_sensor_keeps_flags "pi" ph_reading DEFAULT_CONFIG_DOC temp_high_set)
           TEMP_HIGH Habsent).
Defined.

(** C4. With the sensor value present and the threshold key in the
    configuration, the flag becomes the outcome of the strict comparison:
    set when the value is above the maximum (below the minimum), cleared
    otherwise, in particular when the value equals the threshold. *)
Theorem threshold_comparison_strict
    (deviceId : string) (deviceData : gmap string float) (configData : JS.object)
    (errorData : gmap string bool) :
  let errorData' := (detectSystemErrors deviceId deviceData configData errorData).1 in
  (forall temperature, deviceData !! "temperature" = Some temperature ->
     ("max_temperature" ∈ JS.keys configData ->
      errorData' !! "TEMP_HIGH" =
      Some (JS.gt temperature (JS.ToNumber (JS.get configData "max_temperature"))))
     /\ ("min_temperature" ∈ JS.keys configData ->
         errorData' !! "TEMP_LOW" =
         Some (JS.lt temperature (JS.ToNumber (JS.get configData "min_temperature")))))
  /\ (forall pH, deviceData !! "pH" = Some pH ->
        ("max_ph" ∈ JS.keys configData ->
         errorData' !! "PH_HIGH" =
         Some (JS.gt pH (JS.ToNumber (JS.get configData "max_ph"))))
        /\ ("min_ph" ∈ JS.keys configData ->
            errorData' !! "PH_LOW" =
            Some (JS.lt pH (JS.ToNumber (JS.get configData "min_ph")))))
  /\ (forall C k x, threshold_key C = Some k ->
        deviceData !! sensor C = Some x ->
        JS.get configData k = Some (JS.VNumber x) ->
        errorData' !! flag C = Some false).
Proof.
  intros errorData'. subst errorData'. split; [|split].
  - intros x Hx. split; intros Hk.
    + by apply (detectSystemErrors_checked _ _ _ _ TEMP_HIGH); [apply elem_of_checks|].
    + by apply (detectSystemErrors_checked _ _ _ _ TEMP_LOW); [apply elem_of_checks|].
  - intros x Hx. split; intros Hk.
    + by apply (detectSystemErrors_checked _ _ _ _ PH_HIGH); [apply elem_of_checks|].
    + by apply (detectSystemErrors_checked _ _ _ _ PH_LOW); [apply elem_of_checks|].
  - intros C k x HC Hx Hget.
    rewrite (detectSystemErrors_checked _ _ _ _ C x); [| |done].
    + f_equal. by apply (violates_threshold_itself _ _ k).
    + apply elem_of_checks. rewrite HC. by apply get_Some_keys in Hget.
Qed.

Lemma threshold_comparison_strict_witness :
  threshold_reading !! "temperature" = Some 25%float
  /\ "max_temperature" ∈ JS.keys DEFAULT_CONFIG_DOC
  /\ JS.get DEFAULT_CONFIG_DOC "max_temperature" = Some (JS.VNumber 25)
  /\ (detectSystemErrors "pi" threshold_reading DEFAULT_CONFIG_DOC temp_high_set).1
     !! "TEMP_HIGH" = Some (JS.gt 25 25)
  /\ (detectSystemErrors "pi" threshold_reading DEFAULT_CONFIG_DOC temp_high_set).1
     !! flag TEMP_HIGH = Some false.
Proof.
  assert (Hvalue : threshold_reading !! "temperature" = Some 25%float) by reflexivity.
  assert (Hkey : "max_temperature" ∈ JS.keys DEFAULT_CONFIG_DOC) by compute_done.
  assert (Hmax : JS.get DEFAULT_CONFIG_DOC "max_temperature" = Some (JS.VNumber 25))
    by reflexivity.
  repeat (split; [assumption|]).
  pose proof (threshold_comparison_strict
                "pi" threshold_reading DEFAULT_CONFIG_DOC temp_high_set)
    as (Htemperature & _ & Hequal).
  split.
  - exact (proj1 (Htemperature 25%float Hvalue) Hkey).
  - exact (Hequal TEMP_HIGH "max_temperature" 25%float eq_refl Hvalue Hmax).
Defined.

(** C5. The battery and leak checks compare against the built-in constants
    4.0 and 0.6, whatever the configuration: a present value sets the flag
    when it is strictly beyond the constant and clears it otherwise. *)
#[warnings="-inexact-float"]
Theorem fixed_threshold_checks
    (deviceId : string) (deviceData : gmap string float) (configData : JS.object)
    (errorData : gmap string bool) :
  let errorData' := (detectSystemErrors deviceId deviceData configData errorData).1 in
  (forall battery_voltage, deviceData !! "battery_voltage" = Some battery_voltage ->
     errorData' !! "BATTERY_LOW" = Some (JS.lt battery_voltage 4.0%float))
  /\ (forall leak, deviceData !! "leak" = Some leak ->
        errorData' !! "LEAK_DETECTED" = Some (JS.gt leak 0.6%float))
  /\ (forall internal_leak, deviceData !! "internal_leak" = Some internal_leak ->
        errorData' !! "INTERNAL_LEAK_DETECTED" = Some (JS.gt internal_leak 0.6%float)).
Proof.
  intros errorData'. subst errorData'. split; [|split].
  - intros x Hx.
    by apply (detectSystemErrors_checked _ _ _ _ BATTERY_LOW); [apply elem_of_checks|].
  - intros x Hx.
    by apply (detectSystemErrors_checked _ _ _ _ LEAK_DETECTED); [apply elem_of_checks|].
  - intros x Hx.
    by apply (detectSystemErrors_checked _ _ _ _ INTERNAL_LEAK_DETECTED);
      [apply elem_of_checks|].
Qed.

Lemma fixed_threshold_checks_witness :
  battery_reading !! "battery_voltage" = Some 3.5%float
  /\ (detectSystemErrors "pi" battery_reading [] DEFAULT_ERROR_DOC).1 !! "BATTERY_LOW"
     = Some (JS.lt 3.5 4.0)
  /\ JS.lt 3.5 4.0 = true.
Proof.
  assert (Hvalue : battery_reading !! "battery_voltage" = Some 3.5%float) by reflexivity.
  split; [exact Hvalue|]. split; [|reflexivity].
  exact (proj1 (fixed_threshold_checks "pi" battery_reading [] DEFAULT_ERROR_DOC)
           3.5%float Hvalue).
Defined.

(** C7. The flag a condition gets and whether its notification is sent
    depend on the prior error document only through the flag of that very
    condition: two prior documents that agree on it give the same outcome
    for it, whatever their other flags. *)
Theorem checks_see_prior_snapshot
    (deviceId : string) (deviceData : gmap string float) (configData : JS.object)
    (errorData1 errorData2 : gmap string bool) (C : condition) :
  errorData1 !! flag C = errorData2 !! flag C ->
  let result1 := detectSystemErrors deviceId deviceData configData errorData1 in
  let result2 := detectSystemErrors deviceId deviceData configData errorData2 in
  result1.1 !! flag C = result2.1 !! flag C
  /\ emitted (alert deviceId C) result1.2 = emitted (alert deviceId C) result2.2
  /\ (alert deviceId C ∈ notifications result1.2 <->
      alert deviceId C ∈ notifications result2.2).
Proof.
  intros Hagree result1 result2. subst result1 result2.
  assert (Hcount : emitted (alert deviceId C)
                     (detectSystemErrors deviceId deviceData configData errorData1).2
                   = emitted (alert deviceId C)
                       (detectSystemErrors deviceId deviceData configData errorData2).2).
  { rewrite !detectSystemErrors_emitted. unfold fires. by rewrite Hagree. }
  split; [|split].
  - rewrite !detectSystemErrors_flag. by rewrite Hagree.
  - exact Hcount.
  - rewrite !emitted_elem_of. by rewrite Hcount.
Qed.

Lemma checks_see_prior_snapshot_witness :
  DEFAULT_ERROR_DOC !! flag TEMP_HIGH = ph_low_set !! flag TEMP_HIGH
  /\ (detectSystemErrors "pi" hot_reading DEFAULT_CONFIG_DOC DEFAULT_ERROR_DOC).1
     !! flag TEMP_HIGH
     = (detectSystemErrors "pi" hot_reading DEFAULT_CONFIG_DOC ph_low_set).1
       !! flag TEMP_HIGH
  /\ emitted (alert "pi" TEMP_HIGH)
       (detectSystemErrors "pi" hot_reading DEFAULT_CONFIG_DOC DEFAULT_ERROR_DOC).2
     = emitted (alert "pi" TEMP_HIGH)
         (detectSystemErrors "pi" hot_reading DEFAULT_CONFIG_DOC ph_low_set).2.
Proof.
  assert (Hagree : DEFAULT_ERROR_DOC !! flag TEMP_HIGH = ph_low_set !! flag TEMP_HIGH)
    by reflexivity.
  split; [exact Hagree|].
  pose proof (checks_see_prior_snapshot
                "pi" hot_reading DEFAULT_CONFIG_DOC DEFAULT_ERROR_DOC ph_low_set
                TEMP_HIGH Hagree) as (Hflag & Hcount & _).
  split; [exact Hflag | exact Hcount].
Defined.

(** C10. No evaluation touches WATER_LEVEL_LOW: it comes out as it went in,
    and it is false in every error document reachable from the default. *)
Theorem water_level_low_never_changes :
  (forall deviceId deviceData configData errorData,
     (detectSystemErrors deviceId deviceData configData errorData).1 !! "WATER_LEVEL_LOW"
     = errorData !! "WATER_LEVEL_LOW")
  /\ (forall errorData, reachable errorData ->
        errorData !! "WATER_LEVEL_LOW" = Some false).
Proof.
  assert (Hframe : forall deviceId deviceData configData errorData,
    (detectSystemErrors deviceId deviceData configData errorData).1 !! "WATER_LEVEL_LOW"
    = errorData !! "WATER_LEVEL_LOW").
  { intros. apply detectSystemErrors_frame. intros C. by destruct C. }
  split; [exact Hframe|].
  induction 1 as [|deviceId deviceData configData errorData _ IH].
  - reflexivity.
  - by rewrite Hframe.
Qed.

Lemma water_level_low_never_changes_witness :
  reachable (detectSystemErrors "pi" hot_reading DEFAULT_CONFIG_DOC DEFAULT_ERROR_DOC).1
  /\ (detectSystemErrors "pi" hot_reading DEFAULT_CONFIG_DOC DEFAULT_ERROR_DOC).1
     !! "WATER_LEVEL_LOW" = Some false.
Proof.
  assert (Hreach : reachable
            (detectSystemErrors "pi" hot_reading DEFAULT_CONFIG_DOC DEFAULT_ERROR_DOC).1)
    by (apply reachable_evaluation, reachable_default).
  split; [exact Hreach|].
  exact (proj2 water_level_low_never_changes _ Hreach).
Defined.

(** ** Counting the notifications of an evaluation *)

Lemma transition_writes (deviceId : string) (C : condition) (v : option bool)
    (errorData : gmap string bool) :
  writes (transition deviceId C v errorData).2 = [].
Proof.
  destruct v as [[|]|]; simpl; try reflexivity.
  by destruct (JS.truthy (errorData !! flag C)).
Qed.

Lemma run_writes (deviceId : string) (V : condition -> option bool)
    (cs : list condition) (errorData : gmap string bool) :
  writes (run deviceId V cs errorData).2 = [].
Proof.
  revert errorData. induction cs as [|C cs IH]; intros errorData; [reflexivity|].
  cbn [run]. rewrite bind_snd. unfold writes. rewrite omap_app.
  fold (writes (transition deviceId C (V C) errorData).2).
  rewrite transition_writes. apply IH.
Qed.

(** One evaluation writes one document: the resulting error document. *)
Lemma detectSystemErrors_writes (deviceId : string) (deviceData : gmap string float)
    (configData : JS.object) (errorData : gmap string bool) :
  writes (detectSystemErrors deviceId deviceData configData errorData).2 =
  [(ERROR_COLLECTION, deviceId,
    Errors (detectSystemErrors deviceId deviceData configData errorData).1)].
Proof.
  rewrite detectSystemErrors_fst, detectSystemErrors_run, !bind_snd.
  unfold writes. rewrite omap_app.
  fold (writes (run deviceId (verdict deviceData configData) (checks configData) errorData).2).
  rewrite run_writes. reflexivity.
Qed.

Lemma count_alert_cons (deviceId : string) (C0 C : condition) (l : list FCM) :
  length (filter (fun m => m = alert deviceId C) (alert deviceId C0 :: l)) =
  (if decide (C0 = C) then 1 else 0)
  + length (filter (fun m => m = alert deviceId C) l).
Proof.
  rewrite filter_cons. destruct (decide (C0 = C)) as [->|Hne].
  - by rewrite decide_True.
  - rewrite decide_False; [reflexivity|]. intros H. by apply alert_inj in H.
Qed.

Lemma length_alerts (deviceId : string) (l : list FCM) :
  (forall n, n ∈ l -> exists C, n = alert deviceId C) ->
  length l =
  sum_list (map (fun C => length (filter (fun m => m = alert deviceId C) l)) conditions).
Proof.
  induction l as [|n l IH]; intros Hall; [reflexivity|].
  destruct (Hall n) as [C0 ->]; [by left|].
  assert (IH' := IH (fun m Hm => Hall m (list_elem_of_further _ _ _ Hm))).
  unfold conditions in *. cbn [map sum_list sum_list_with id] in *.
  rewrite !count_alert_cons. cbn [length]. rewrite IH'.
  destruct C0; simpl; lia.
Qed.

(** The notifications of an evaluation are those of its conditions. *)
Lemma detectSystemErrors_count (deviceId : string) (deviceData : gmap string float)
    (configData : JS.object) (errorData : gmap string bool) :
  length (notifications (detectSystemErrors deviceId deviceData configData errorData).2) =
  sum_list (map (fun C => emitted (alert deviceId C)
                            (detectSystemErrors deviceId deviceData configData errorData).2)
                conditions).
Proof. apply length_alerts. apply detectSystemErrors_alerts. Qed.

(** C6. The reading with pH 11 and battery voltage 3.0, evaluated against
    the all-false error document under a configuration whose max_ph is 10
    (and whose min_ph does not exceed the reading), sends exactly two
    notifications, the one of PH_HIGH and the one of BATTERY_LOW, and the one
    error document it writes has both flags set. *)
Theorem scenario_ph_high_and_battery_low (deviceId : string) (configData : JS.object) :
  JS.get configData "max_ph" = Some (JS.VNumber 10) ->
  JS.lt 11 (JS.ToNumber (JS.get configData "min_ph")) = false ->
  let result :=
    detectSystemErrors deviceId ph_battery_reading configData DEFAULT_ERROR_DOC in
  length (notifications result.2) = 2
  /\ emitted (alert deviceId PH_HIGH) result.2 = 1
  /\ emitted (alert deviceId BATTERY_LOW) result.2 = 1
  /\ result.1 !! "PH_HIGH" = Some true
  /\ result.1 !! "BATTERY_LOW" = Some true
  /\ writes result.2 = [(ERROR_COLLECTION, deviceId, Errors result.1)].
Proof.
  intros Hmax Hmin result. subst result.
  assert (Hcount : forall C,
    emitted (alert deviceId C)
      (detectSystemErrors deviceId ph_battery_reading configData DEFAULT_ERROR_DOC).2 =
    match C with PH_HIGH | BATTERY_LOW => 1 | _ => 0 end).
  { intros C. rewrite detectSystemErrors_emitted. unfold fires, verdict.
    assert (Hfield : forall C', ph_battery_reading !! sensor C' =
                                match C' with
                                | PH_HIGH | PH_LOW => Some 11%float
                                | BATTERY_LOW => Some 3.0%float
                                | _ => None
                                end) by (by intros []).
    assert (Hflag : forall C', DEFAULT_ERROR_DOC !! flag C' = Some false)
      by (by intros []).
    rewrite Hfield, Hflag.
    destruct C; cbn [fmap option_fmap option_map violates JS.truthy negb];
      rewrite ?Hmin, ?Hmax; try (by destruct (decide _)).
    - rewrite decide_True
        by (apply elem_of_checks; simpl; by apply get_Some_keys in Hmax).
      reflexivity.
    - rewrite decide_True by by apply elem_of_checks.
      reflexivity. }
  split; [|split; [|split; [|split; [|split]]]].
  - rewrite detectSystemErrors_count. unfold conditions.
    cbn [map sum_list sum_list_with id]. by rewrite !Hcount.
  - apply Hcount.
  - apply Hcount.
  - rewrite (detectSystemErrors_checked _ _ _ _ PH_HIGH 11%float); [| |reflexivity].
    + simpl. rewrite Hmax. reflexivity.
    + apply elem_of_checks. simpl. by apply get_Some_keys in Hmax.
  - by rewrite (detectSystemErrors_checked _ _ _ _ BATTERY_LOW 3.0%float);
      [|apply elem_of_checks|].
  - apply detectSystemErrors_writes.
Qed.

Lemma scenario_ph_high_and_battery_low_witness :
  JS.get DEFAULT_CONFIG_DOC "max_ph" = Some (JS.VNumber 10)
  /\ JS.lt 11 (JS.ToNumber (JS.get DEFAULT_CONFIG_DOC "min_ph")) = false
  /\ length (notifications
               (detectSystemErrors "pi" ph_battery_reading DEFAULT_CONFIG_DOC
                  DEFAULT_ERROR_DOC).2) = 2
  /\ (detectSystemErrors "pi" ph_battery_reading DEFAULT_CONFIG_DOC DEFAULT_ERROR_DOC).1
     !! "PH_HIGH" = Some true
  /\ (detectSystemErrors "pi" ph_battery_reading DEFAULT_CONFIG_DOC DEFAULT_ERROR_DOC).1
     !! "BATTERY_LOW" = Some true.
Proof.
  assert (Hmax : JS.get DEFAULT_CONFIG_DOC "max_ph" = Some (JS.VNumber 10))
    by reflexivity.
  assert (Hmin : JS.lt 11 (JS.ToNumber (JS.get DEFAULT_CONFIG_DOC "min_ph")) = false)
    by reflexivity.
  repeat (split; [assumption|]).
  pose proof (scenario_ph_high_and_battery_low "pi" DEFAULT_CONFIG_DOC Hmax Hmin)
    as (Hlength & _ & _ & Hph & Hbattery & _).
  split; [exact Hlength|]. split; [exact Hph | exact Hbattery].
Defined.

(** ** The format of the notifications *)

(** X9. Every notification of an evaluation goes to the topic of the
    device, with the generic warning as body, priority high and a time to
    live of 86400 seconds; its title is the one its check builds. *)
Lemma notification_format (deviceId : string) (deviceData : gmap string float)
    (configData : JS.object) (errorData : gmap string bool)
    (topic : string) (m : notificationMessage) (o : notificationOptions) :
  (topic, m, o) ∈ notifications
                    (detectSystemErrors deviceId deviceData configData errorData).2 ->
  topic = deviceId
  /\ body (message_notification m) = GENERIC_WARN_MSG
  /\ priority o = "high"
  /\ timeToLive o = 86400%Z
  /\ exists C, title (message_notification m) = sent_title deviceId C
               /\ (C ≠ INTERNAL_LEAK_DETECTED ->
                   title (message_notification m) = deviceId +:+ ": " +:+ condition_message C).
Proof.
  intros [C HC]%detectSystemErrors_alerts. injection HC as -> -> ->.
  repeat (split; [reflexivity|]). exists C. split; [reflexivity|].
  by destruct C.
Qed.

(** C8. The notification of the internal-leak check: its title is the
    device identifier, one space and the message, without the colon that
    the other six checks put after the identifier. *)
Theorem internal_leak_title_lacks_colon (deviceId : string) :
  let deviceData : gmap string float := {[ "internal_leak" := 1.0%float ]} in
  let result :=
    detectSystemErrors deviceId deviceData DEFAULT_CONFIG_DOC DEFAULT_ERROR_DOC in
  notifications result.2 =
    [ (deviceId,
       {| message_notification :=
            {| title := deviceId +:+ " " +:+ "INTERNAL LEAK DETECTED...";
               body := "Please check your system to avoid damage...";
               sound := "default" |} |},
       {| priority := "high"; timeToLive := 86400 |}) ]
  /\ deviceId +:+ " " +:+ "INTERNAL LEAK DETECTED..."
     ≠ deviceId +:+ ": " +:+ "INTERNAL LEAK DETECTED...".
Proof.
  split.
  - reflexivity.
  - intros H. apply append_inv_head in H. discriminate H.
Qed.

(** ** Base64 decodes to what was encoded *)

Lemma list_ind3 {A : Type} (P : list A -> Prop) :
  P [] -> (forall a, P [a]) -> (forall a b, P [a; b]) ->
  (forall a b c l, P l -> P (a :: b :: c :: l)) ->
  forall l, P l.
Proof.
  intros H0 H1 H2 H3 l.
  enough (P l /\ (forall a, P (a :: l)) /\ (forall a b, P (a :: b :: l))) by tauto.
  induction l as [|x l (IH0 & IH1 & IH2)]; auto.
Qed.

Lemma digits_table :
  forallb (fun v => match Base64.value_of (Base64.digit v) with
                    | Some v' => (v' =? v)%Z
                    | None => false
                    end && negb (Ascii.eqb (Base64.digit v) Base64.pad))
          (seqZ 0 64) = true.
Proof. vm_compute. reflexivity. Qed.

Lemma digit_spec (v : Z) :
  (0 <= v < 64)%Z ->
  Base64.value_of (Base64.digit v) = Some v
  /\ Ascii.eqb (Base64.digit v) Base64.pad = false.
Proof.
  intros Hv. pose proof digits_table as Htable.
  rewrite forallb_forall in Htable.
  assert (Hin : In v (seqZ 0 64)) by (apply list_elem_of_In, elem_of_seqZ; lia).
  apply Htable in Hin. apply andb_prop in Hin as [Hval Hpad].
  split.
  - destruct (Base64.value_of (Base64.digit v)) as [v'|]; [|discriminate].
    apply Z.eqb_eq in Hval. by subst.
  - by apply negb_true_iff in Hpad.
Qed.

Lemma decode_encode (bs : list Z) :
  Forall (fun b => 0 <= b < 256)%Z bs ->
  Base64.decode (Base64.encode bs) = Some bs.
Proof.
  pattern bs. apply list_ind3; clear bs;
    [intros _ | intros a Hbs | intros a b Hbs | intros a b c bs IH Hbs].
  - reflexivity.
  - apply Forall_cons in Hbs as [Ha _]. cbn [Base64.encode Base64.decode].
    destruct (digit_spec (a / 4)) as [-> _]; [Z.div_mod_to_equations; lia|].
    destruct (digit_spec (a mod 4 * 16)) as [-> _]; [Z.div_mod_to_equations; lia|].
    rewrite Ascii.eqb_refl. do 2 f_equal. Z.div_mod_to_equations; lia.
  - apply Forall_cons in Hbs as [Ha [Hb _]%Forall_cons].
    cbn [Base64.encode Base64.decode].
    destruct (digit_spec (a / 4)) as [-> _]; [Z.div_mod_to_equations; lia|].
    destruct (digit_spec (a mod 4 * 16 + b / 16)) as [-> _];
      [Z.div_mod_to_equations; lia|].
    destruct (digit_spec (b mod 16 * 4)) as [-> ->]; [Z.div_mod_to_equations; lia|].
    rewrite Ascii.eqb_refl. f_equal. f_equal; [|f_equal]; Z.div_mod_to_equations; lia.
  - apply Forall_cons in Hbs as [Ha [Hb [Hc Hbs]%Forall_cons]%Forall_cons].
    cbn [Base64.encode Base64.decode].
    destruct (digit_spec (a / 4)) as [-> _]; [Z.div_mod_to_equations; lia|].
    destruct (digit_spec (a mod 4 * 16 + b / 16)) as [-> _];
      [Z.div_mod_to_equations; lia|].
    destruct (digit_spec (b mod 16 * 4 + c / 64)) as [-> ->];
      [Z.div_mod_to_equations; lia|].
    destruct (digit_spec (c mod 64)) as [-> ->]; [Z.div_mod_to_equations; lia|].
    rewrite (IH Hbs). f_equal. f_equal; [|f_equal; [|f_equal]];
      Z.div_mod_to_equations; lia.
Qed.

Lemma bytes_of_string_range (s : string) :
  Forall (fun b => 0 <= b < 256)%Z (Base64.bytes_of_string s).
Proof.
  unfold Base64.bytes_of_string. apply Forall_forall. intros b Hb.
  apply list_elem_of_fmap in Hb as (c & -> & _).
  pose proof (N_ascii_bounded c). lia.
Qed.

Lemma string_of_bytes_of_string (s : string) :
  Base64.string_of_bytes (Base64.bytes_of_string s) = s.
Proof.
  unfold Base64.string_of_bytes, Base64.bytes_of_string.
  rewrite <- (String.string_of_list_ascii_of_string s) at 2. f_equal.
  rewrite map_map. rewrite <- (map_id (String.list_ascii_of_string s)) at 2.
  apply map_ext. intros c. by rewrite N2Z.id, ascii_N_embedding.
Qed.

(** Decoding the Base64 text of a string gives the string back. *)
Lemma base64_round_trip (s : string) :
  Base64.to_string (Base64.of_string s) = Some s.
Proof.
  unfold Base64.to_string, Base64.of_string.
  rewrite String.list_ascii_of_string_of_list_ascii.
  rewrite decode_encode by apply bytes_of_string_range.
  simpl. by rewrite string_of_bytes_of_string.
Qed.

Lemma string_app_nil_r (s : string) : s +:+ "" = s.
Proof.
  induction s as [|a s IH]; [reflexivity|].
  change (String a (s +:+ "") = String a s). by f_equal.
Qed.

Lemma string_app_assoc (s1 s2 s3 : string) : (s1 +:+ s2) +:+ s3 = s1 +:+ (s2 +:+ s3).
Proof.
  induction s1 as [|a s1 IH]; [reflexivity|].
  change (String a ((s1 +:+ s2) +:+ s3) = String a (s1 +:+ (s2 +:+ s3))). by f_equal.
Qed.

(** An element of a joined list of strings is a part of the result. *)
Lemma concat_contains (sep x : string) (l : list string) :
  x ∈ l -> exists pre post, String.concat sep l = pre +:+ x +:+ post.
Proof.
  induction l as [|y l IH]; [by intros ?%elem_of_nil|].
  intros Hx. destruct l as [|z l].
  - apply list_elem_of_singleton in Hx as ->. exists "", "". simpl.
    by rewrite string_app_nil_r.
  - apply elem_of_cons in Hx as [->|Hx].
    + exists "", (sep +:+ String.concat sep (z :: l)). reflexivity.
    + destruct (IH Hx) as (pre & post & Hcat).
      exists (y +:+ sep +:+ pre), post.
      change (String.concat sep (y :: z :: l))
        with (y +:+ sep +:+ String.concat sep (z :: l)).
      by rewrite Hcat, !string_app_assoc.
Qed.

(** The JSON text of a document contains every field of the document. *)
Lemma stringify_contains (Number_toString : float -> string) (o : JS.object)
    (k : string) (v : JS.value) :
  (k, v) ∈ o ->
  exists pre post,
    JSON.stringify Number_toString o =
    pre +:+ JSON.Quote k +:+ ":" +:+ JSON.serialize Number_toString v +:+ post.
Proof.
  intros Hkv. unfold JSON.stringify.
  destruct (concat_contains ","
              (JSON.Quote k +:+ ":" +:+ JSON.serialize Number_toString v)
              (map (fun kv => JSON.Quote kv.1 +:+ ":" +:+ JSON.serialize Number_toString kv.2)
                   o))
    as (pre & post & ->).
  - apply list_elem_of_fmap. by exists (k, v).
  - exists ("{" +:+ pre), (post +:+ "}"). by rewrite !string_app_assoc.
Qed.

(** C9, as amended. For a change of the Config document of a device that
    leaves a document (a creation or an update), the relay makes one call,
    [modifyCloudToDeviceConfig], with the request of [generateRequest]: its
    name is the device path built from the project, the region, the
    registry and the device identifier, and its binary data is the Base64
    text of the JSON serialization of the whole document, every field of
    which is in that text. *)
Theorem config_push_request (Number_toString : float -> string)
    (change : change_t) (context : context_t) (configData : JS.object) :
  after_data change = Some configData ->
  let deviceId := params_deviceId context in
  let request := generateRequest Number_toString deviceId configData in
  iotDeviceConfigUpdate Number_toString change (Some context)
  = Returned [client_modifyCloudToDeviceConfig request]
  /\ name request = devicePath "piponics" "us-central1" "RaspberryPis" deviceId
  /\ name request =
     "projects/piponics/locations/us-central1/registries/RaspberryPis/devices/" +:+ deviceId
  /\ binaryData request = Base64.of_string (JSON.stringify Number_toString configData)
  /\ Base64.to_string (binaryData request)
     = Some (JSON.stringify Number_toString configData)
  /\ (forall k v, (k, v) ∈ configData ->
        exists pre post,
          JSON.stringify Number_toString configData =
          pre +:+ JSON.Quote k +:+ ":" +:+ JSON.serialize Number_toString v +:+ post).
Proof.
  intros Hdata deviceId request. subst request.
  split; [unfold iotDeviceConfigUpdate; by rewrite Hdata|].
  do 3 (split; [reflexivity|]).
  split; [apply base64_round_trip|].
  intros k v Hkv. by apply stringify_contains.
Qed.

Lemma config_push_request_witness :
  after_data written_change = Some DEFAULT_CONFIG_DOC
  /\ iotDeviceConfigUpdate (fun _ => "0") written_change (Some pi_context)
     = Returned [client_modifyCloudToDeviceConfig
                   (generateRequest (fun _ => "0") "pi" DEFAULT_CONFIG_DOC)]
  /\ Base64.to_string
       (binaryData (generateRequest (fun _ => "0") "pi" DEFAULT_CONFIG_DOC))
     = Some (JSON.stringify (fun _ => "0") DEFAULT_CONFIG_DOC).
Proof.
  assert (Hdata : after_data written_change = Some DEFAULT_CONFIG_DOC) by reflexivity.
  pose proof (config_push_request (fun _ => "0") written_change pi_context
                DEFAULT_CONFIG_DOC Hdata) as (Hcall & _ & _ & _ & Hdecode & _).
  split; [exact Hdata|]. split; [exact Hcall | exact Hdecode].
Defined.

(** C9, as stated, fails on the deletion of a Config document: the trigger
    fires, [change.after.data()] is [undefined], [generateRequest] throws a
    [TypeError] and no request is built or sent. *)
Lemma config_push_request_fails_on_deletion :
  after_data deleted_change = None
  /\ iotDeviceConfigUpdate (fun _ => "0") deleted_change (Some pi_context)
     = Thrown TypeError
  /\ ~ (exists request,
         iotDeviceConfigUpdate (fun _ => "0") deleted_change (Some pi_context)
         = Returned [client_modifyCloudToDeviceConfig request]).
Proof.
  split; [reflexivity|]. split; [reflexivity|].
  intros [request Hrequest]. discriminate Hrequest.
Qed.

(** * The claims on [iotStoreDeviceUpdates] *)

(** With the Error document present, the handler evaluates the reading;
    a missing Config document is first created from the default, which the
    evaluation then uses. *)
Lemma missing_config_uses_default (message : message_t) (now : Timestamp)
    (errorData : gmap string bool) :
  let deviceId := attributes_deviceId message in
  let stamped := {| fields := delete "timestamp" (json message); timestamp := now |} in
  (iotStoreDeviceUpdates message now None (Some errorData)).2 =
  ([ database_ref_set deviceId stamped;
     firestore_set STATUS_COLLECTION deviceId (Readings stamped);
     firestore_add HISTORY_COLLECTION deviceId HISTORY_COLLECTION (Readings stamped);
     firestore_set CONFIG_COLLECTION deviceId (Settings DEFAULT_CONFIG_DOC) ]
   ++ (detectSystemErrors deviceId (fields stamped) DEFAULT_CONFIG_DOC errorData).2)%list.
Proof.
  intros deviceId stamped. unfold iotStoreDeviceUpdates.
  rewrite !bind_snd. simpl. by rewrite app_nil_r.
Qed.

(** With the Error document missing, the handler writes the default error
    document and stops: whatever the reading, nothing is evaluated and no
    notification is sent. *)
Lemma missing_error_document_stops (message : message_t) (now : Timestamp)
    (configSnapshot : option JS.object) :
  let deviceId := attributes_deviceId message in
  let stamped := {| fields := delete "timestamp" (json message); timestamp := now |} in
  (iotStoreDeviceUpdates message now configSnapshot None).2 =
  ([ database_ref_set deviceId stamped;
     firestore_set STATUS_COLLECTION deviceId (Readings stamped);
     firestore_add HISTORY_COLLECTION deviceId HISTORY_COLLECTION (Readings stamped) ]
   ++ match configSnapshot with
      | None => [firestore_set CONFIG_COLLECTION deviceId (Settings DEFAULT_CONFIG_DOC)]
      | Some _ => []
      end
   ++ [firestore_set ERROR_COLLECTION deviceId (Errors DEFAULT_ERROR_DOC)])%list.
Proof. intros deviceId stamped. by destruct configSnapshot. Qed.

(** The two defaults: the thresholds of the configuration and the eight
    flags of the error document, all false. *)
Lemma default_documents :
  JS.get DEFAULT_CONFIG_DOC "max_ph" = Some (JS.VNumber 10)
  /\ JS.get DEFAULT_CONFIG_DOC "min_ph" = Some (JS.VNumber 5)
  /\ JS.get DEFAULT_CONFIG_DOC "max_temperature" = Some (JS.VNumber 25)
  /\ JS.get DEFAULT_CONFIG_DOC "min_temperature" = Some (JS.VNumber 15)
  /\ map_to_list DEFAULT_ERROR_DOC ≡ₚ
       [ ("PH_HIGH", false); ("PH_LOW", false); ("TEMP_HIGH", false);
         ("TEMP_LOW", false); ("WATER_LEVEL_LOW", false); ("BATTERY_LOW", false);
         ("LEAK_DETECTED", false); ("INTERNAL_LEAK_DETECTED", false) ].
Proof.
  repeat (split; [reflexivity|]).
  unfold DEFAULT_ERROR_DOC. apply map_to_list_to_map. compute_done.
Qed.

(** C2. The first message of a device, with temperature 30, when neither
    its Config nor its Error document exists: the handler writes both
    defaults and returns. It sends no notification and the Error document
    it leaves is the all-false default, although the evaluation of this
    reading against the two defaults sends the TEMP_HIGH notification and
    sets TEMP_HIGH. *)
Theorem first_contact_skips_evaluation (now : Timestamp) :
  let message :=
    {| attributes_deviceId := "pi"; json := {[ "temperature" := 30%float ]} |} in
  let stamped := {| fields := delete "timestamp" (json message); timestamp := now |} in
  let handled := iotStoreDeviceUpdates message now None None in
  let evaluated :=
    detectSystemErrors "pi" (fields stamped) DEFAULT_CONFIG_DOC DEFAULT_ERROR_DOC in
  handled.2 =
    [ database_ref_set "pi" stamped;
      firestore_set "Status" "pi" (Readings stamped);
      firestore_add "History" "pi" "History" (Readings stamped);
      firestore_set "Config" "pi" (Settings DEFAULT_CONFIG_DOC);
      firestore_set "Error" "pi" (Errors DEFAULT_ERROR_DOC) ]
  /\ notifications handled.2 = []
  /\ notifications evaluated.2 = [alert "pi" TEMP_HIGH]
  /\ evaluated.1 !! "TEMP_HIGH" = Some true
  /\ DEFAULT_ERROR_DOC !! "TEMP_HIGH" = Some false.
Proof. repeat split. Qed.

(** * Further properties of the evaluation *)

Lemma run_ext (deviceId : string) (V V' : condition -> option bool)
    (cs : list condition) (errorData : gmap string bool) :
  (forall C, V C = V' C) ->
  run deviceId V cs errorData = run deviceId V' cs errorData.
Proof.
  intros HV. revert errorData. induction cs as [|C cs IH]; intros errorData; [reflexivity|].
  cbn [run]. rewrite HV. apply bind_ext. intros e. apply IH.
Qed.

Lemma run_none (deviceId : string) (V : condition -> option bool)
    (cs : list condition) (errorData : gmap string bool) :
  (forall C, V C = None) -> run deviceId V cs errorData = ret errorData.
Proof.
  intros HV. induction cs as [|C cs IH]; [reflexivity|].
  cbn [run]. rewrite HV. cbn [transition]. by rewrite bind_ret_l.
Qed.

Lemma transition_sends (deviceId : string) (C : condition) (v : option bool)
    (errorData : gmap string bool) :
  (transition deviceId C v errorData).2 =
  map send (notifications (transition deviceId C v errorData).2).
Proof.
  destruct v as [[|]|]; simpl; try reflexivity.
  by destruct (JS.truthy (errorData !! flag C)).
Qed.

Lemma run_sends (deviceId : string) (V : condition -> option bool)
    (cs : list condition) (errorData : gmap string bool) :
  (run deviceId V cs errorData).2 =
  map send (notifications (run deviceId V cs errorData).2).
Proof.
  revert errorData. induction cs as [|C cs IH]; intros errorData; [reflexivity|].
  cbn [run]. rewrite bind_snd, notifications_app, map_app.
  by rewrite <- transition_sends, <- IH.
Qed.

(** The trace of an evaluation: its notifications, then the write. *)
Lemma detectSystemErrors_trace (deviceId : string) (deviceData : gmap string float)
    (configData : JS.object) (errorData : gmap string bool) :
  (detectSystemErrors deviceId deviceData configData errorData).2 =
  (map send (notifications (detectSystemErrors deviceId deviceData configData errorData).2)
   ++ [firestore_set ERROR_COLLECTION deviceId
         (Errors (detectSystemErrors deviceId deviceData configData errorData).1)])%list.
Proof.
  rewrite detectSystemErrors_notifications, detectSystemErrors_fst.
  rewrite detectSystemErrors_run, !bind_snd. simpl.
  by rewrite <- run_sends.
Qed.

(** Every key is the flag of a condition or of none. *)
Lemma flag_or_not (k : string) : (exists C, k = flag C) \/ (forall C, k ≠ flag C).
Proof.
  destruct (decide (k ∈ map flag conditions)) as [Hin|Hnin].
  - left. apply list_elem_of_fmap in Hin as (C & -> & _). by exists C.
  - right. intros C ->. apply Hnin. apply list_elem_of_fmap. exists C.
    split; [reflexivity|]. destruct C; compute_done.
Qed.

(** Two evaluations that agree on every flag give the same document. *)
Lemma detectSystemErrors_fst_eq
    (deviceId1 deviceId2 : string) (deviceData1 deviceData2 : gmap string float)
    (configData1 configData2 : JS.object) (errorData : gmap string bool) :
  (forall C,
     (detectSystemErrors deviceId1 deviceData1 configData1 errorData).1 !! flag C =
     (detectSystemErrors deviceId2 deviceData2 configData2 errorData).1 !! flag C) ->
  (detectSystemErrors deviceId1 deviceData1 configData1 errorData).1 =
  (detectSystemErrors deviceId2 deviceData2 configData2 errorData).1.
Proof.
  intros Hflags. apply map_eq. intros k.
  destruct (flag_or_not k) as [[C ->]|Hk]; [apply Hflags|].
  by rewrite !detectSystemErrors_frame.
Qed.

Lemma keys_get (o : JS.object) (k : string) :
  k ∈ JS.keys o <-> is_Some (JS.get o k).
Proof.
  split; [|intros [v Hv]; by apply get_Some_keys in Hv].
  induction o as [|[k' v'] o IH]; simpl; [by intros ?%elem_of_nil|].
  destruct (String.eqb_spec k k') as [->|Hne]; [by eauto|].
  intros [?|?]%elem_of_cons; [done | by apply IH].
Qed.

Lemma emitted_not_alert (n : FCM) (deviceId : string) (deviceData : gmap string float)
    (configData : JS.object) (errorData : gmap string bool) :
  (forall C, n ≠ alert deviceId C) ->
  emitted n (detectSystemErrors deviceId deviceData configData errorData).2 = 0.
Proof.
  intros Hn.
  destruct (emitted n (detectSystemErrors deviceId deviceData configData errorData).2)
    as [|m] eqn:E; [reflexivity|].
  assert (Hin : n ∈ notifications
                      (detectSystemErrors deviceId deviceData configData errorData).2)
    by (apply emitted_elem_of; lia).
  apply detectSystemErrors_alerts in Hin as [C ->]. by destruct (Hn C).
Qed.

(** Readings that agree on the sensor fields of the checks are evaluated
    alike. *)
Lemma detectSystemErrors_sensors (deviceId : string)
    (deviceData1 deviceData2 : gmap string float)
    (configData : JS.object) (errorData : gmap string bool) :
  (forall C, deviceData1 !! sensor C = deviceData2 !! sensor C) ->
  detectSystemErrors deviceId deviceData1 configData errorData =
  detectSystemErrors deviceId deviceData2 configData errorData.
Proof.
  intros Hr. rewrite !detectSystemErrors_run.
  rewrite (run_ext deviceId (verdict deviceData1 configData) (verdict deviceData2 configData));
    [reflexivity|].
  intros C. unfold verdict. by rewrite Hr.
Qed.

(** X1. Evaluating the same reading again on the document an evaluation
    left changes nothing and sends nothing: it only writes that document
    once more. *)
Theorem evaluation_idempotent
    (deviceId : string) (deviceData : gmap string float) (configData : JS.object)
    (errorData : gmap string bool) :
  let first := detectSystemErrors deviceId deviceData configData errorData in
  detectSystemErrors deviceId deviceData configData first.1 =
  (first.1, [firestore_set ERROR_COLLECTION deviceId (Errors first.1)]).
Proof.
  intros first.
  assert (Hdoc : (detectSystemErrors deviceId deviceData configData first.1).1 = first.1).
  { apply map_eq. intros k. destruct (flag_or_not k) as [[C ->]|Hk].
    - rewrite detectSystemErrors_flag. subst first.
      rewrite (detectSystemErrors_flag deviceId deviceData configData errorData C).
      destruct (decide (C ∈ checks configData)); [|reflexivity].
      by destruct (verdict deviceData configData C).
    - by apply detectSystemErrors_frame. }
  assert (Hsilent :
    notifications (detectSystemErrors deviceId deviceData configData first.1).2 = []).
  { destruct (notifications _) as [|n l] eqn:E; [reflexivity|]. exfalso.
    assert (Hin : n ∈ notifications
                        (detectSystemErrors deviceId deviceData configData first.1).2)
      by (rewrite E; by left).
    destruct (detectSystemErrors_alerts _ _ _ _ _ Hin) as [C ->].
    apply emitted_elem_of in Hin. rewrite detectSystemErrors_edge, Hdoc in Hin.
    destruct (JS.truthy (first.1 !! flag C)); simpl in Hin; lia. }
  pose proof (detectSystemErrors_trace deviceId deviceData configData first.1) as Htrace.
  rewrite Hsilent, Hdoc in Htrace. simpl in Htrace.
  destruct (detectSystemErrors deviceId deviceData configData first.1) as [e2 t2].
  simpl in *. by subst.
Qed.

(** X2. An evaluation leaves every key that is not one of the seven flags
    as it was, and removes no key from the error document. *)
Theorem evaluation_keeps_other_keys
    (deviceId : string) (deviceData : gmap string float) (configData : JS.object)
    (errorData : gmap string bool) :
  let errorData' := (detectSystemErrors deviceId deviceData configData errorData).1 in
  (forall k, k ∉ ["TEMP_LOW"; "TEMP_HIGH"; "PH_HIGH"; "PH_LOW"; "BATTERY_LOW";
                  "INTERNAL_LEAK_DETECTED"; "LEAK_DETECTED"] ->
             errorData' !! k = errorData !! k)
  /\ (forall k, is_Some (errorData !! k) -> is_Some (errorData' !! k)).
Proof.
  intros errorData'. subst errorData'. split.
  - intros k Hk. apply detectSystemErrors_frame. intros C ->. apply Hk.
    destruct C; compute_done.
  - intros k Hsome. destruct (flag_or_not k) as [[C ->]|Hk].
    + rewrite detectSystemErrors_flag.
      destruct (decide (C ∈ checks configData)); [|exact Hsome].
      by destruct (verdict deviceData configData C); [eauto|].
    + by rewrite detectSystemErrors_frame.
Qed.

Lemma evaluation_keeps_other_keys_witness :
  ("WATER_LEVEL_LOW" ∉ ["TEMP_LOW"; "TEMP_HIGH"; "PH_HIGH"; "PH_LOW"; "BATTERY_LOW";
                        "INTERNAL_LEAK_DETECTED"; "LEAK_DETECTED"])
  /\ (detectSystemErrors "pi" hot_reading DEFAULT_CONFIG_DOC DEFAULT_ERROR_DOC).1
     !! "WATER_LEVEL_LOW" = DEFAULT_ERROR_DOC !! "WATER_LEVEL_LOW"
  /\ is_Some (DEFAULT_ERROR_DOC !! "PH_LOW")
  /\ is_Some ((detectSystemErrors "pi" hot_reading DEFAULT_CONFIG_DOC DEFAULT_ERROR_DOC).1
              !! "PH_LOW").
Proof.
  assert (Hkey : "WATER_LEVEL_LOW" ∉ ["TEMP_LOW"; "TEMP_HIGH"; "PH_HIGH"; "PH_LOW";
                                      "BATTERY_LOW"; "INTERNAL_LEAK_DETECTED";
                                      "LEAK_DETECTED"]) by compute_done.
  assert (Hsome : is_Some (DEFAULT_ERROR_DOC !! "PH_LOW")) by (by exists false).
  pose proof (evaluation_keeps_other_keys "pi" hot_reading DEFAULT_CONFIG_DOC
                DEFAULT_ERROR_DOC) as [Hframe Hkeeps].
  split; [exact Hkey|]. split; [exact (Hframe _ Hkey)|].
  split; [exact Hsome | exact (Hkeeps _ Hsome)].
Defined.

(** X3. The calls of an evaluation are its notifications followed by one
    write, the last call: that of the resulting error document to the Error
    document of the device. *)
Theorem evaluation_writes_last
    (deviceId : string) (deviceData : gmap string float) (configData : JS.object)
    (errorData : gmap string bool) :
  let result := detectSystemErrors deviceId deviceData configData errorData in
  result.2 =
    (map send (notifications result.2)
     ++ [firestore_set "Error" deviceId (Errors result.1)])%list
  /\ last result.2 = Some (firestore_set "Error" deviceId (Errors result.1))
  /\ length result.2 = S (length (notifications result.2)).
Proof.
  intros result. subst result.
  pose proof (detectSystemErrors_trace deviceId deviceData configData errorData) as Htrace.
  split; [exact Htrace|]. split.
  - rewrite Htrace at 1. by rewrite last_snoc.
  - rewrite Htrace at 1. rewrite length_app, length_map. simpl. lia.
Qed.

(** X4. The notification of a condition is sent exactly when the reading is
    out of range for it (its check runs and finds a violation) while its
    flag is not set in the prior error document. *)
Theorem notification_iff_new_violation
    (deviceId : string) (deviceData : gmap string float) (configData : JS.object)
    (errorData : gmap string bool) (C : condition) :
  alert deviceId C ∈ notifications
                       (detectSystemErrors deviceId deviceData configData errorData).2
  <-> out_of_range deviceData configData C = true
      /\ JS.truthy (errorData !! flag C) = false.
Proof.
  rewrite emitted_elem_of, detectSystemErrors_emitted. unfold out_of_range, fires.
  destruct (decide (C ∈ checks configData)) as [HC|HC].
  - rewrite bool_decide_eq_true_2 by done.
    destruct (verdict deviceData configData C) as [[|]|];
      destruct (JS.truthy (errorData !! flag C)); simpl; split;
      first [lia | intros [? ?]; discriminate | by intros _].
  - rewrite bool_decide_eq_false_2 by done. simpl. split; [lia | intros [? ?]; discriminate].
Qed.

(** X5. A reading with none of the five sensor fields leaves the error
    document as it is and sends nothing; the document is written back all
    the same. *)
Theorem reading_without_sensors
    (deviceId : string) (deviceData : gmap string float) (configData : JS.object)
    (errorData : gmap string bool) :
  deviceData !! "temperature" = None -> deviceData !! "pH" = None ->
  deviceData !! "battery_voltage" = None -> deviceData !! "internal_leak" = None ->
  deviceData !! "leak" = None ->
  detectSystemErrors deviceId deviceData configData errorData =
  (errorData, [firestore_set "Error" deviceId (Errors errorData)]).
Proof.
  intros Ht Hp Hb Hi Hl. rewrite detectSystemErrors_run, run_none; [reflexivity|].
  intros C. unfold verdict. by destruct C; simpl; rewrite ?Ht, ?Hp, ?Hb, ?Hi, ?Hl.
Qed.

Lemma reading_without_sensors_witness :
  detectSystemErrors "pi" level_reading DEFAULT_CONFIG_DOC temp_high_set =
  (temp_high_set, [firestore_set "Error" "pi" (Errors temp_high_set)]).
Proof.
  apply (reading_without_sensors "pi" level_reading DEFAULT_CONFIG_DOC temp_high_set);
    reflexivity.
Defined.

(** X6. The fields of the configuration other than the four thresholds,
    and the order of its fields, do not matter: two configurations with the
    same four thresholds (each present in both with one value, or absent
    from both) give the same error document and send the same notifications
    as often. *)
Theorem other_configuration_fields_ignored
    (deviceId : string) (deviceData : gmap string float)
    (configData1 configData2 : JS.object) (errorData : gmap string bool) :
  JS.get configData1 "min_temperature" = JS.get configData2 "min_temperature" ->
  JS.get configData1 "max_temperature" = JS.get configData2 "max_temperature" ->
  JS.get configData1 "max_ph" = JS.get configData2 "max_ph" ->
  JS.get configData1 "min_ph" = JS.get configData2 "min_ph" ->
  let result1 := detectSystemErrors deviceId deviceData configData1 errorData in
  let result2 := detectSystemErrors deviceId deviceData configData2 errorData in
  result1.1 = result2.1 /\ forall n, emitted n result1.2 = emitted n result2.2.
Proof.
  intros Hmin_t Hmax_t Hmax_p Hmin_p result1 result2. subst result1 result2.
  assert (Hchecks : forall C, C ∈ checks configData1 <-> C ∈ checks configData2).
  { intros C. rewrite !elem_of_checks.
    destruct C; simpl; rewrite ?keys_get; try tauto;
      by rewrite ?Hmin_t, ?Hmax_t, ?Hmax_p, ?Hmin_p. }
  assert (Hverdict : forall C,
    verdict deviceData configData1 C = verdict deviceData configData2 C).
  { intros C. unfold verdict.
    destruct (deviceData !! sensor C) as [x|]; [|reflexivity]. simpl. f_equal.
    destruct C; simpl; by rewrite ?Hmin_t, ?Hmax_t, ?Hmax_p, ?Hmin_p. }
  assert (Hcount : forall C,
    emitted (alert deviceId C)
      (detectSystemErrors deviceId deviceData configData1 errorData).2 =
    emitted (alert deviceId C)
      (detectSystemErrors deviceId deviceData configData2 errorData).2).
  { intros C. rewrite !detectSystemErrors_emitted, Hverdict.
    apply decide_ext, Hchecks. }
  split.
  - apply detectSystemErrors_fst_eq. intros C.
    rewrite !detectSystemErrors_flag, Hverdict. apply decide_ext, Hchecks.
  - intros n.
    destruct (decide (n ∈ map (alert deviceId) conditions)) as [Hn|Hn].
    + apply list_elem_of_fmap in Hn as (C & -> & _). apply Hcount.
    + rewrite !emitted_not_alert; [reflexivity| |];
        intros C ->; apply Hn; apply list_elem_of_fmap; exists C;
        (split; [reflexivity | destruct C; compute_done]).
Qed.

Lemma other_configuration_fields_ignored_witness :
  (detectSystemErrors "pi" hot_reading DEFAULT_CONFIG_DOC DEFAULT_ERROR_DOC).1 =
  (detectSystemErrors "pi" hot_reading pump_on_config DEFAULT_ERROR_DOC).1.
Proof.
  apply (other_configuration_fields_ignored
           "pi" hot_reading DEFAULT_CONFIG_DOC pump_on_config DEFAULT_ERROR_DOC);
    reflexivity.
Defined.

(** X7. Fields of the reading other than temperature, pH, battery_voltage,
    internal_leak and leak are ignored: two readings that agree on these
    five give the same error document and the same calls. *)
Theorem other_reading_fields_ignored
    (deviceId : string) (deviceData1 deviceData2 : gmap string float)
    (configData : JS.object) (errorData : gmap string bool) :
  deviceData1 !! "temperature" = deviceData2 !! "temperature" ->
  deviceData1 !! "pH" = deviceData2 !! "pH" ->
  deviceData1 !! "battery_voltage" = deviceData2 !! "battery_voltage" ->
  deviceData1 !! "internal_leak" = deviceData2 !! "internal_leak" ->
  deviceData1 !! "leak" = deviceData2 !! "leak" ->
  detectSystemErrors deviceId deviceData1 configData errorData =
  detectSystemErrors deviceId deviceData2 configData errorData.
Proof.
  intros Ht Hp Hb Hi Hl. apply detectSystemErrors_sensors. by intros [].
Qed.

Lemma other_reading_fields_ignored_witness :
  detectSystemErrors "pi" stamped_reading DEFAULT_CONFIG_DOC DEFAULT_ERROR_DOC =
  detectSystemErrors "pi" hot_reading DEFAULT_CONFIG_DOC DEFAULT_ERROR_DOC.
Proof.
  apply (other_reading_fields_ignored
           "pi" stamped_reading hot_reading DEFAULT_CONFIG_DOC DEFAULT_ERROR_DOC);
    reflexivity.
Defined.

Lemma replay_out_of_range (deviceId : string) (C : condition)
    (inputs : list (gmap string float * JS.object)) (errorData : gmap string bool) :
  Forall (fun input => out_of_range input.1 input.2 C = true) inputs ->
  emitted (alert deviceId C) (replay deviceId inputs errorData).2 =
    match inputs with
    | [] => 0
    | _ => if JS.truthy (errorData !! flag C) then 0 else 1
    end
  /\ (inputs ≠ [] -> (replay deviceId inputs errorData).1 !! flag C = Some true).
Proof.
  intros Hall. revert errorData.
  induction Hall as [|[deviceData configData] inputs Hout Hall IH]; intros errorData.
  - split; [reflexivity | done].
  - cbn [replay]. simpl in Hout. rewrite bind_snd, bind_fst, emitted_app.
    pose proof (out_of_range_flag deviceId deviceData configData errorData C Hout) as Hset.
    destruct (IH (detectSystemErrors deviceId deviceData configData errorData).1)
      as [IHcount IHflag].
    rewrite IHcount, detectSystemErrors_edge, Hset. simpl. split.
    + destruct inputs; destruct (JS.truthy (errorData !! flag C)); simpl; lia.
    + intros _. destruct inputs as [|input inputs]; [exact Hset | by apply IHflag].
Qed.

(** X8. However many consecutive readings are out of range for a condition,
    starting from a prior error document in which its flag is not set, its
    notification is sent once in all, and the flag ends set. *)
Theorem repeated_violations_notify_once (deviceId : string) (C : condition)
    (inputs : list (gmap string float * JS.object)) (errorData : gmap string bool) :
  Forall (fun input => out_of_range input.1 input.2 C = true) inputs ->
  inputs ≠ [] ->
  JS.truthy (errorData !! flag C) = false ->
  emitted (alert deviceId C) (replay deviceId inputs errorData).2 = 1
  /\ (replay deviceId inputs errorData).1 !! flag C = Some true.
Proof.
  intros Hall Hne Hclear.
  destruct (replay_out_of_range deviceId C inputs errorData Hall) as [Hcount Hflag].
  split; [|by apply Hflag]. rewrite Hcount, Hclear. by destruct inputs.
Qed.

Lemma repeated_violations_notify_once_witness :
  emitted (alert "pi" TEMP_HIGH)
    (replay "pi" [ (hot_reading, DEFAULT_CONFIG_DOC); (hotter_reading, DEFAULT_CONFIG_DOC);
                   (hot_reading, pump_on_config) ] DEFAULT_ERROR_DOC).2 = 1.
Proof.
  apply (repeated_violations_notify_once "pi" TEMP_HIGH
           [ (hot_reading, DEFAULT_CONFIG_DOC); (hotter_reading, DEFAULT_CONFIG_DOC);
             (hot_reading, pump_on_config) ] DEFAULT_ERROR_DOC).
  - repeat (constructor; [vm_compute; reflexivity|]). constructor.
  - discriminate.
  - reflexivity.
Defined.

Lemma notification_format_witness :
  alert "pi" TEMP_HIGH ∈ notifications
    (detectSystemErrors "pi" hot_reading DEFAULT_CONFIG_DOC DEFAULT_ERROR_DOC).2
  /\ priority (alert "pi" TEMP_HIGH).2 = "high"
  /\ timeToLive (alert "pi" TEMP_HIGH).2 = 86400%Z.
Proof.
  assert (Hin : alert "pi" TEMP_HIGH ∈ notifications
            (detectSystemErrors "pi" hot_reading DEFAULT_CONFIG_DOC DEFAULT_ERROR_DOC).2)
    by (vm_compute; left).
  pose proof (notification_format "pi" hot_reading DEFAULT_CONFIG_DOC DEFAULT_ERROR_DOC
                _ _ _ Hin) as (_ & _ & Hpriority & Httl & _).
  split; [exact Hin|]. split; [exact Hpriority | exact Httl].
Defined.

(** X16. One evaluation sends no notification twice, and at most seven
    notifications in all. *)
Theorem evaluation_sends_at_most_seven
    (deviceId : string) (deviceData : gmap string float) (configData : JS.object)
    (errorData : gmap string bool) :
  let result := detectSystemErrors deviceId deviceData configData errorData in
  (forall n, emitted n result.2 <= 1) /\ length (notifications result.2) <= 7.
Proof.
  intros result. subst result.
  assert (Hone : forall C,
    emitted (alert deviceId C)
      (detectSystemErrors deviceId deviceData configData errorData).2 <= 1).
  { intros C. rewrite detectSystemErrors_edge. destruct (_ && _); lia. }
  split.
  - intros n. destruct (decide (n ∈ map (alert deviceId) conditions)) as [Hn|Hn].
    + apply list_elem_of_fmap in Hn as (C & -> & _). apply Hone.
    + rewrite emitted_not_alert; [lia|].
      intros C ->. apply Hn. apply list_elem_of_fmap. exists C.
      split; [reflexivity | destruct C; compute_done].
  - rewrite detectSystemErrors_count. unfold conditions.
    cbn [map sum_list sum_list_with id].
    pose proof (Hone TEMP_LOW). pose proof (Hone TEMP_HIGH). pose proof (Hone PH_HIGH).
    pose proof (Hone PH_LOW). pose proof (Hone BATTERY_LOW).
    pose proof (Hone INTERNAL_LEAK_DETECTED). pose proof (Hone LEAK_DETECTED). lia.
Qed.

Lemma ltb_nan_r (x : float) : PrimFloat.ltb x nan = false.
Proof.
  rewrite ltb_spec. unfold SFltb.
  replace (Prim2SF nan) with S754_nan by reflexivity.
  by destruct (Prim2SF x).
Qed.

Lemma ltb_nan_l (x : float) : PrimFloat.ltb nan x = false.
Proof.
  rewrite ltb_spec. unfold SFltb.
  replace (Prim2SF nan) with S754_nan by reflexivity.
  by destruct (Prim2SF x).
Qed.

(** X17. A threshold that is NaN disables its check: whenever the sensor
    value is present the flag is cleared, whatever the value, and no
    notification of that condition is sent. *)
Theorem nan_threshold_never_alerts
    (deviceId : string) (deviceData : gmap string float) (configData : JS.object)
    (errorData : gmap string bool) (C : condition) (k : string) (x : float) :
  threshold_key C = Some k ->
  JS.get configData k = Some (JS.VNumber nan) ->
  deviceData !! sensor C = Some x ->
  let result := detectSystemErrors deviceId deviceData configData errorData in
  result.1 !! flag C = Some false /\ alert deviceId C ∉ notifications result.2.
Proof.
  intros Hk Hnan Hx result. subst result.
  assert (Hclear : (detectSystemErrors deviceId deviceData configData errorData).1
                   !! flag C = Some false).
  { rewrite (detectSystemErrors_checked _ _ _ _ C x); [| |done].
    - f_equal. destruct C; try discriminate Hk; injection Hk as <-; simpl; rewrite Hnan;
        first [apply ltb_nan_r | apply ltb_nan_l].
    - apply elem_of_checks. rewrite Hk. by apply get_Some_keys in Hnan. }
  split; [exact Hclear|].
  rewrite emitted_elem_of, detectSystemErrors_edge, Hclear, andb_false_r. lia.
Qed.

Lemma nan_threshold_never_alerts_witness :
  (detectSystemErrors "pi" hot_reading [("max_temperature", JS.VNumber nan)]
     temp_high_set).1 !! flag TEMP_HIGH = Some false.
Proof.
  apply (nan_threshold_never_alerts "pi" hot_reading [("max_temperature", JS.VNumber nan)]
           temp_high_set TEMP_HIGH "max_temperature" 30%float);
    reflexivity.
Defined.

(** * Further properties of the handlers *)

Lemma detectSystemErrors_timestamp (deviceId : string) (deviceData : gmap string float)
    (configData : JS.object) (errorData : gmap string bool) :
  detectSystemErrors deviceId (delete "timestamp" deviceData) configData errorData =
  detectSystemErrors deviceId deviceData configData errorData.
Proof.
  apply detectSystemErrors_sensors. intros C. apply lookup_delete_ne. by destruct C.
Qed.

(** The trace of the handler in all four cases of the two snapshots. *)
Lemma iotStoreDeviceUpdates_trace (message : message_t) (now : Timestamp)
    (configSnapshot : option JS.object) (errorSnapshot : option (gmap string bool)) :
  let deviceId := attributes_deviceId message in
  let stamped := {| fields := delete "timestamp" (json message); timestamp := now |} in
  (iotStoreDeviceUpdates message now configSnapshot errorSnapshot).2 =
  ([ database_ref_set deviceId stamped;
     firestore_set STATUS_COLLECTION deviceId (Readings stamped);
     firestore_add HISTORY_COLLECTION deviceId HISTORY_COLLECTION (Readings stamped) ]
   ++ match configSnapshot with
      | None => [firestore_set CONFIG_COLLECTION deviceId (Settings DEFAULT_CONFIG_DOC)]
      | Some _ => []
      end
   ++ match errorSnapshot with
      | None => [firestore_set ERROR_COLLECTION deviceId (Errors DEFAULT_ERROR_DOC)]
      | Some piErrorData =>
          (detectSystemErrors deviceId (json message)
             (default DEFAULT_CONFIG_DOC configSnapshot) piErrorData).2
      end)%list.
Proof.
  intros deviceId stamped. unfold iotStoreDeviceUpdates.
  destruct configSnapshot as [c|], errorSnapshot as [e|];
    rewrite ?bind_snd; simpl; rewrite ?app_nil_r, ?detectSystemErrors_timestamp;
    reflexivity.
Qed.

Lemma detectSystemErrors_addressee (deviceId : string) (deviceData : gmap string float)
    (configData : JS.object) (errorData : gmap string bool) :
  Forall (fun c => addressee c = deviceId)
         (detectSystemErrors deviceId deviceData configData errorData).2.
Proof.
  rewrite detectSystemErrors_trace. apply Forall_app. split.
  - apply Forall_forall. intros c (n & -> & Hn)%list_elem_of_fmap.
    by apply detectSystemErrors_alerts in Hn as [C ->].
  - by repeat constructor.
Qed.

(** X10. Every call the handler of a message makes addresses the device of
    that message: the database reference, the Status, History, Config and
    Error documents and the notification topic are all its identifier. *)
Theorem handler_addresses_its_device (message : message_t) (now : Timestamp)
    (configSnapshot : option JS.object) (errorSnapshot : option (gmap string bool)) :
  Forall (fun c => addressee c = attributes_deviceId message)
         (iotStoreDeviceUpdates message now configSnapshot errorSnapshot).2.
Proof.
  rewrite iotStoreDeviceUpdates_trace. repeat (apply Forall_app; split).
  - by repeat constructor.
  - destruct configSnapshot; by repeat constructor.
  - destruct errorSnapshot; [apply detectSystemErrors_addressee | by repeat constructor].
Qed.

Lemma iotStoreDeviceUpdates_writes (message : message_t) (now : Timestamp)
    (configSnapshot : option JS.object) (errorSnapshot : option (gmap string bool)) :
  writes (iotStoreDeviceUpdates message now configSnapshot errorSnapshot).2 =
  ([ (STATUS_COLLECTION, attributes_deviceId message,
      Readings {| fields := delete "timestamp" (json message); timestamp := now |}) ]
   ++ match configSnapshot with
      | None => [(CONFIG_COLLECTION, attributes_deviceId message,
                  Settings DEFAULT_CONFIG_DOC)]
      | Some _ => []
      end
   ++ [ (ERROR_COLLECTION, attributes_deviceId message,
         Errors match errorSnapshot with
                | None => DEFAULT_ERROR_DOC
                | Some piErrorData =>
                    (detectSystemErrors (attributes_deviceId message) (json message)
                       (default DEFAULT_CONFIG_DOC configSnapshot) piErrorData).1
                end) ])%list.
Proof.
  rewrite iotStoreDeviceUpdates_trace.
  unfold writes. rewrite !omap_app. f_equal. f_equal.
  - by destruct configSnapshot.
  - destruct errorSnapshot as [e|]; [|reflexivity]. apply detectSystemErrors_writes.
Qed.

(** X11. The document writes of one message: the stamped reading to the
    Status document, the default configuration to the Config document only
    when that document is missing (an existing one is never written), and
    one write to the Error document: the default when it is missing, else
    the result of the evaluation. *)
Theorem handler_writes (message : message_t) (now : Timestamp)
    (configSnapshot : option JS.object) (errorSnapshot : option (gmap string bool)) :
  let deviceId := attributes_deviceId message in
  let stamped := {| fields := delete "timestamp" (json message); timestamp := now |} in
  writes (iotStoreDeviceUpdates message now configSnapshot errorSnapshot).2 =
  ([ ("Status", deviceId, Readings stamped) ]
   ++ match configSnapshot with
      | None => [("Config", deviceId, Settings DEFAULT_CONFIG_DOC)]
      | Some _ => []
      end
   ++ [ ("Error", deviceId,
         Errors match errorSnapshot with
                | None => DEFAULT_ERROR_DOC
                | Some piErrorData =>
                    (detectSystemErrors deviceId (json message)
                       (default DEFAULT_CONFIG_DOC configSnapshot) piErrorData).1
                end) ])%list.
Proof. intros deviceId stamped. apply iotStoreDeviceUpdates_writes. Qed.

(** X12. When the Error document exists, the handler stores the reading and
    then makes exactly the calls of the evaluation of the JSON body against
    the stored configuration, or against the default one when the Config
    document is missing: the [timestamp] it adds plays no part. *)
Theorem handler_evaluates (message : message_t) (now : Timestamp)
    (configSnapshot : option JS.object) (piErrorData : gmap string bool) :
  let deviceId := attributes_deviceId message in
  let stamped := {| fields := delete "timestamp" (json message); timestamp := now |} in
  let evaluated :=
    detectSystemErrors deviceId (json message)
      (default DEFAULT_CONFIG_DOC configSnapshot) piErrorData in
  (iotStoreDeviceUpdates message now configSnapshot (Some piErrorData)).2 =
    ([ database_ref_set deviceId stamped;
       firestore_set "Status" deviceId (Readings stamped);
       firestore_add "History" deviceId "History" (Readings stamped) ]
     ++ match configSnapshot with
        | None => [firestore_set "Config" deviceId (Settings DEFAULT_CONFIG_DOC)]
        | Some _ => []
        end
     ++ evaluated.2)%list
  /\ notifications (iotStoreDeviceUpdates message now configSnapshot (Some piErrorData)).2
     = notifications evaluated.2
  /\ last (iotStoreDeviceUpdates message now configSnapshot (Some piErrorData)).2
     = Some (firestore_set "Error" deviceId (Errors evaluated.1)).
Proof.
  intros deviceId stamped evaluated. subst evaluated.
  rewrite iotStoreDeviceUpdates_trace. split; [reflexivity|]. split.
  - rewrite !notifications_app. by destruct configSnapshot.
  - rewrite detectSystemErrors_trace, !app_assoc. apply last_snoc.
Qed.

(** ** The handler against the document store *)

(** The Config and Error documents after one message. *)
Lemma deliver_documents (db : firestore_t) (message : message_t) (now : Timestamp) :
  let deviceId := attributes_deviceId message in
  let configData := default DEFAULT_CONFIG_DOC (Config_docs db !! deviceId) in
  Config_docs (deliver db message now).1 = <[deviceId := configData]> (Config_docs db)
  /\ Error_docs (deliver db message now).1 =
     <[deviceId := match Error_docs db !! deviceId with
                   | None => DEFAULT_ERROR_DOC
                   | Some piErrorData =>
                       (detectSystemErrors deviceId (json message) configData
                          piErrorData).1
                   end]> (Error_docs db).
Proof.
  intros deviceId configData. subst configData. unfold deliver. cbn [fst].
  rewrite iotStoreDeviceUpdates_writes. fold deviceId.
  destruct (Config_docs db !! deviceId) as [c|] eqn:Hc; simpl; split;
    first [reflexivity | symmetry; by apply insert_id].
Qed.

(** X13. After a message of a device is handled, the Config and the Error
    document of that device exist; a Config document that existed is
    unchanged, and the documents of every other device are untouched. *)
Theorem delivery_registers_device (db : firestore_t) (message : message_t)
    (now : Timestamp) :
  let deviceId := attributes_deviceId message in
  let db' := (deliver db message now).1 in
  is_Some (Config_docs db' !! deviceId)
  /\ is_Some (Error_docs db' !! deviceId)
  /\ (forall configData, Config_docs db !! deviceId = Some configData ->
                         Config_docs db' !! deviceId = Some configData)
  /\ (forall other, other ≠ deviceId ->
                    Config_docs db' !! other = Config_docs db !! other
                    /\ Error_docs db' !! other = Error_docs db !! other).
Proof.
  intros deviceId db'. subst db'.
  destruct (deliver_documents db message now) as [-> ->]. fold deviceId.
  split; [by rewrite lookup_insert_eq|]. split; [by rewrite lookup_insert_eq|]. split.
  - intros configData ->. by rewrite lookup_insert_eq.
  - intros other Hother. by rewrite !lookup_insert_ne.
Qed.

Lemma delivery_registers_device_witness :
  is_Some (Config_docs (deliver empty_store hot_message epoch).1 !! "pi")
  /\ is_Some (Error_docs (deliver empty_store hot_message epoch).1 !! "pi")
  /\ ("pj" ≠ "pi"
      /\ Config_docs (deliver empty_store hot_message epoch).1 !! "pj" = None).
Proof.
  pose proof (delivery_registers_device empty_store hot_message epoch)
    as (Hconfig & Herror & _ & Hothers).
  assert (Hother : "pj" ≠ "pi") by discriminate.
  split; [exact Hconfig|]. split; [exact Herror|]. split; [exact Hother|].
  exact (proj1 (Hothers "pj" Hother)).
Defined.

(** X14. The first message of a device that has neither document only
    creates the two defaults and sends nothing, whatever it reads; the next
    message of the device is then evaluated against these defaults, and its
    result is what the Error document holds afterwards. *)
Theorem second_message_is_evaluated (db : firestore_t) (message1 message2 : message_t)
    (now1 now2 : Timestamp) :
  let deviceId := attributes_deviceId message1 in
  Config_docs db !! deviceId = None ->
  Error_docs db !! deviceId = None ->
  attributes_deviceId message2 = deviceId ->
  let first := deliver db message1 now1 in
  let second := deliver first.1 message2 now2 in
  let evaluated :=
    detectSystemErrors deviceId (json message2) DEFAULT_CONFIG_DOC DEFAULT_ERROR_DOC in
  notifications first.2 = []
  /\ Error_docs first.1 !! deviceId = Some DEFAULT_ERROR_DOC
  /\ notifications second.2 = notifications evaluated.2
  /\ Error_docs second.1 !! deviceId = Some evaluated.1.
Proof.
  intros deviceId Hconfig Herror Hsame first second evaluated.
  subst first second evaluated.
  destruct (deliver_documents db message1 now1) as [Hc1 He1]. fold deviceId in Hc1, He1.
  rewrite Hconfig in Hc1. rewrite Hconfig, Herror in He1. cbn [default] in Hc1, He1.
  destruct (deliver_documents (deliver db message1 now1).1 message2 now2) as [_ He2].
  rewrite Hsame, Hc1, He1, !lookup_insert_eq in He2. cbn [default] in He2.
  split; [|split; [|split]].
  - unfold deliver. cbn [snd]. fold deviceId. rewrite Hconfig, Herror.
    rewrite iotStoreDeviceUpdates_trace. reflexivity.
  - by rewrite He1, lookup_insert_eq.
  - unfold deliver at 1. cbn [snd]. rewrite Hsame, Hc1, He1, !lookup_insert_eq.
    rewrite iotStoreDeviceUpdates_trace, Hsame. reflexivity.
  - by rewrite He2, lookup_insert_eq.
Qed.

Lemma second_message_is_evaluated_witness :
  Config_docs empty_store !! "pi" = None
  /\ Error_docs empty_store !! "pi" = None
  /\ notifications (deliver empty_store hot_message epoch).2 = []
  /\ notifications
       (deliver (deliver empty_store hot_message epoch).1 hot_message epoch).2
     = notifications
         (detectSystemErrors "pi" hot_reading DEFAULT_CONFIG_DOC DEFAULT_ERROR_DOC).2.
Proof.
  assert (Hconfig : Config_docs empty_store !! "pi" = None) by reflexivity.
  assert (Herror : Error_docs empty_store !! "pi" = None) by reflexivity.
  pose proof (second_message_is_evaluated empty_store hot_message hot_message epoch epoch
                Hconfig Herror eq_refl) as (Hfirst & _ & Hsecond & _).
  split; [exact Hconfig|]. split; [exact Herror|].
  split; [exact Hfirst | exact Hsecond].
Defined.

(** ** The request of the relay *)

(** X15. The request determines the device and the serialized document:
    requests with the same name are for the same device, and requests with
    the same binary data carry the same JSON text. *)
Theorem generateRequest_injective (Number_toString : float -> string)
    (deviceId1 deviceId2 : string) (configData1 configData2 : JS.object) :
  let request1 := generateRequest Number_toString deviceId1 configData1 in
  let request2 := generateRequest Number_toString deviceId2 configData2 in
  (name request1 = name request2 -> deviceId1 = deviceId2)
  /\ (binaryData request1 = binaryData request2 ->
      JSON.stringify Number_toString configData1
      = JSON.stringify Number_toString configData2).
Proof.
  intros request1 request2. subst request1 request2. split.
  - unfold generateRequest, devicePath. cbn [name]. intros H.
    do 7 apply append_inv_head in H. exact H.
  - cbn [generateRequest binaryData]. intros H.
    apply (f_equal Base64.to_string) in H. rewrite !base64_round_trip in H.
    congruence.
Qed.

Lemma generateRequest_injective_witness :
  name (generateRequest (fun _ => "0") "pi" DEFAULT_CONFIG_DOC)
  = name (generateRequest (fun _ => "0") "pi" pump_on_config)
  /\ "pi" = "pi".
Proof.
  assert (Hname : name (generateRequest (fun _ => "0") "pi" DEFAULT_CONFIG_DOC)
                  = name (generateRequest (fun _ => "0") "pi" pump_on_config))
    by reflexivity.
  split; [exact Hname|].
  exact (proj1 (generateRequest_injective (fun _ => "0") "pi" "pi" DEFAULT_CONFIG_DOC
                  pump_on_config) Hname).
Defined.
